(** * The data-exploration dashboard of [datasc.py]

    [datasc.py] is one Streamlit script.  Every render cycle runs it from top
    to bottom: it reads the uploaded file into a pandas [DataFrame], turns the
    boolean and object columns into text, shows a preview, four overview
    metrics and three summary tabs, lets the user pick columns, and draws a
    chart of a (possibly truncated, possibly grouped) view of the data.

    The definitions come in three layers.

    - [Pandas]: the part of the dataframe engine the script calls ([head],
      column selection, [isnull], [astype('str')], [groupby(..).sum()/mean()],
      [value_counts]), as executable functions on column-wise frames.
    - [Streamlit]: the script's effects, a writer monad over the list of
      rendered elements with the three ways a cycle ends (it runs to the end,
      [st.stop()] halts it, an uncaught exception aborts it).
    - [Datasc]: the script itself, line by line.

    [Examples] holds the inputs the statements are tried on; the modules
    whose names end in [Facts] hold the lemmas of each layer, [DatascFacts]
    those about the script.

    Idealisations, all of them about the engines and none about the script:
    numeric cells are exact rationals kept in lowest terms (no [float64]
    rounding, no [int64] overflow); an object column holds text, booleans and
    missing values, which is what [read_csv] produces; [astype('str')] writes
    a missing value as the text [nan], as pandas 1.x and 2.x do. *)

From Stdlib Require Import String Ascii Bool Arith ZArith QArith Lia.
From Stdlib Require Import List Permutation Sorted.
Import ListNotations.

Close Scope Q_scope.
Local Open Scope string_scope.
Local Open Scope nat_scope.
Local Open Scope list_scope.

(** ** Generic list programs used by the engine model *)

Module Lists.

Section Distinct.
Context {K : Type}.
Variable eqb : K -> K -> bool.

(** How often [k] occurs in [l]. *)
Definition count (k : K) (l : list K) : nat :=
  length (filter (eqb k) l).

(** The values of [l] without repetition, in order of first appearance. *)
Fixpoint distinct (l : list K) : list K :=
  match l with
  | [] => []
  | k :: l' => k :: filter (fun k' => negb (eqb k k')) (distinct l')
  end.

(** The second components of the pairs whose first component is [k]: the
    entries of one column on the rows where another column holds [k]. *)
Definition group_values {V : Type} (k : K) (keys : list K) (vals : list V) : list V :=
  map snd (filter (fun p => eqb k (fst p)) (combine keys vals)).
End Distinct.

Section Sort.
Context {A : Type}.
Variable leb : A -> A -> bool.

Fixpoint insert (x : A) (l : list A) : list A :=
  match l with
  | [] => [x]
  | y :: l' => if leb x y then x :: l else y :: insert x l'
  end.

(** Stable insertion sort: of two elements that compare equal the one that
    came first stays first. *)
Definition sort (l : list A) : list A := fold_right insert [] l.
End Sort.

End Lists.

(** ** The dataframe engine *)

Module Pandas.

(** A numeric cell that is not missing. *)
Definition number := Q.

Definition num (z : Z) : number := inject_Z z.

Definition num_eqb (a b : number) : bool :=
  (Qnum a =? Qnum b)%Z && (Qden a =? Qden b)%positive.

Definition num_leb (a b : number) : bool := Qle_bool a b.

Definition num_add (a b : number) : number := Qred (Qplus a b).

Definition num_div (a b : number) : number := Qred (Qdiv a b).

(** What a cell of an object column holds. *)
Inductive pyobj :=
| PStr (s : string)
| PBool (b : bool)
| PNaN.

(** A column's data; the constructor is its dtype.  A numeric column marks a
    missing value with [None] (NaN); a [bool] column has no missing values. *)
Inductive Series :=
| Numeric (v : list (option number))
| Boolean (v : list bool)
| Object (v : list pyobj).

(** One cell, whatever the dtype of its column. *)
Inductive cell :=
| CNum (x : option number)
| CBool (b : bool)
| CObj (o : pyobj).

Record Column := { col_name : string; col_data : Series }.

(** A frame is the list of its columns, in order.  The readers deliver
    columns of one length with pairwise different names ([wf] below). *)
Definition DataFrame := list Column.

Definition cells (s : Series) : list cell :=
  match s with
  | Numeric v => map CNum v
  | Boolean v => map CBool v
  | Object v => map CObj v
  end.

Definition series_len (s : Series) : nat := length (cells s).

(** [len(df)], [df.shape[0]]: the number of rows. *)
Definition len (df : DataFrame) : nat :=
  match df with
  | [] => 0
  | c :: _ => series_len (col_data c)
  end.

(** [df.columns.tolist()]. *)
Definition columns (df : DataFrame) : list string := map col_name df.

Definition wf (df : DataFrame) : Prop :=
  NoDup (columns df) /\ Forall (fun c => series_len (col_data c) = len df) df.

(** *** Equality and order of cells *)

Definition pyobj_eqb (a b : pyobj) : bool :=
  match a, b with
  | PStr s, PStr t => String.eqb s t
  | PBool x, PBool y => Bool.eqb x y
  | PNaN, PNaN => true
  | _, _ => false
  end.

Definition option_num_eqb (a b : option number) : bool :=
  match a, b with
  | Some x, Some y => num_eqb x y
  | None, None => true
  | _, _ => false
  end.

Definition cell_eqb (a b : cell) : bool :=
  match a, b with
  | CNum x, CNum y => option_num_eqb x y
  | CBool x, CBool y => Bool.eqb x y
  | CObj x, CObj y => pyobj_eqb x y
  | _, _ => false
  end.




(** [False < True]. *)
Definition bool_leb (a b : bool) : bool := implb a b.

(** Text is ordered by code point.  After [astype('str')] an object column
    holds text only; the other cases make the order total. *)
Definition pyobj_leb (a b : pyobj) : bool :=
  match a, b with
  | PStr s, PStr t => String.leb s t
  | PBool x, PBool y => bool_leb x y
  | PBool _, PStr _ => true
  | PStr _, PBool _ => false
  | _, PNaN => true
  | PNaN, _ => false
  end.

(** *** Missing values *)

(** [isnull] on one cell: NaN in a numeric or an object column.  A text, the
    text [nan] included, is not missing. *)
Definition isnull (c : cell) : bool :=
  match c with
  | CNum None => true
  | CObj PNaN => true
  | _ => false
  end.

Definition notnull (c : cell) : bool := negb (isnull c).

(** [s.isnull().sum()]. *)
Definition isnull_sum (s : Series) : nat := length (filter isnull (cells s)).

(** [df.isnull().sum().sum()]. *)
Definition isnull_sum_sum (df : DataFrame) : nat :=
  fold_right (fun c acc => isnull_sum (col_data c) + acc) 0 df.

(** *** Rows from the top *)

(** How many rows [iloc[:n]] keeps of [size]: a negative [n] counts from the
    end. *)
Definition slice_stop (n : Z) (size : nat) : nat :=
  if (0 <=? n)%Z then Z.to_nat n else size - Z.to_nat (- n).

Definition series_head (n : Z) (s : Series) : Series :=
  match s with
  | Numeric v => Numeric (firstn (slice_stop n (length v)) v)
  | Boolean v => Boolean (firstn (slice_stop n (length v)) v)
  | Object v => Object (firstn (slice_stop n (length v)) v)
  end.

(** [df.head(n)]; [df.head()] is [head 5 df]. *)
Definition head (n : Z) (df : DataFrame) : DataFrame :=
  map (fun c => {| col_name := col_name c; col_data := series_head n (col_data c) |}) df.

(** *** Exceptions *)

Inductive exn :=
| ParserError (detail : string)
| NameError (name : string)
| KeyError (label : string)
| TypeError (detail : string)
| ValueError (detail : string).

Inductive result (A : Type) :=
| Ok (a : A)
| Raise (e : exn).
Arguments Ok {A} a.
Arguments Raise {A} e.

Definition bind {A B : Type} (r : result A) (k : A -> result B) : result B :=
  match r with
  | Ok a => k a
  | Raise e => Raise e
  end.

(** *** Column access *)

Definition lookup (label : string) (df : DataFrame) : option Column :=
  find (fun c => String.eqb (col_name c) label) df.

(** [df[label]]. *)
Definition getitem (label : string) (df : DataFrame) : result Series :=
  match lookup label df with
  | Some c => Ok (col_data c)
  | None => Raise (KeyError label)
  end.

(** [df[labels]]: the named columns, in the order of [labels]. *)
Fixpoint getitem_list (labels : list string) (df : DataFrame) : result DataFrame :=
  match labels with
  | [] => Ok []
  | l :: labels' =>
      match lookup l df with
      | Some c => bind (getitem_list labels' df) (fun rest => Ok (c :: rest))
      | None => Raise (KeyError l)
      end
  end.

(** *** dtypes and [astype('str')] *)

(** The columns [select_dtypes(include=['bool','object'])] keeps. *)
Definition is_bool_or_object (s : Series) : bool :=
  match s with
  | Numeric _ => false
  | Boolean _ | Object _ => true
  end.

(** The columns [select_dtypes(include=['number'])] keeps. *)
Definition is_number (s : Series) : bool :=
  match s with
  | Numeric _ => true
  | Boolean _ | Object _ => false
  end.

Definition select_dtypes (keep : Series -> bool) (df : DataFrame) : DataFrame :=
  filter (fun c => keep (col_data c)) df.

(** [df.empty]: no column or no row. *)
Definition empty (df : DataFrame) : bool :=
  (length df =? 0) || (len df =? 0).

Definition str_of_bool (b : bool) : string := if b then "True" else "False".

(** Python's [str] on the content of an object cell. *)
Definition str (o : pyobj) : string :=
  match o with
  | PStr s => s
  | PBool b => str_of_bool b
  | PNaN => "nan"
  end.

(** [s.astype('str')] on a boolean or an object column.  The script applies
    it to no other column. *)
Definition astype_str (s : Series) : Series :=
  match s with
  | Numeric v => Numeric v
  | Boolean v => Object (map (fun b => PStr (str_of_bool b)) v)
  | Object v => Object (map (fun o => PStr (str o)) v)
  end.

(** *** [groupby(x)[y].sum()] and [.mean()] *)

Inductive how := Sum | Mean.

Definition non_missing (v : list (option number)) : list number :=
  flat_map (fun x => match x with Some q => [q] | None => [] end) v.

Definition total (l : list number) : number := fold_right num_add (num 0) l.

(** Missing values are skipped; the sum of nothing is 0, the mean of nothing
    is missing. *)
Definition reduce (h : how) (v : list (option number)) : option number :=
  match h with
  | Sum => Some (total (non_missing v))
  | Mean =>
      match non_missing v with
      | [] => None
      | l => Some (num_div (total l) (num (Z.of_nat (length l))))
      end
  end.

(** A [bool] column is added up as 0 and 1. *)
Definition number_of_bool (b : bool) : option number :=
  Some (num (if b then 1 else 0)).

(** Adding up text is concatenation; anything else in the group is a
    [TypeError]. *)
Fixpoint text_sum (v : list pyobj) : result string :=
  match v with
  | [] => Ok ""
  | PStr s :: v' => bind (text_sum v') (fun t => Ok (s ++ t)%string)
  | _ :: _ => Raise (TypeError "unsupported operand type(s) for +")
  end.

Fixpoint traverse {A B : Type} (f : A -> result B) (l : list A) : result (list B) :=
  match l with
  | [] => Ok []
  | a :: l' => bind (f a) (fun b => bind (traverse f l') (fun bs => Ok (b :: bs)))
  end.

Definition pyobj_notnull (o : pyobj) : bool := negb (pyobj_eqb o PNaN).

(** The group keys of a column: its values that are not missing
    ([dropna=True]), each once, in ascending order ([sort=True]). *)
Definition group_keys (s : Series) : Series :=
  match s with
  | Numeric v =>
      Numeric (map Some (Lists.sort num_leb (Lists.distinct num_eqb (non_missing v))))
  | Boolean v =>
      Boolean (Lists.sort bool_leb (Lists.distinct Bool.eqb v))
  | Object v =>
      Object (Lists.sort pyobj_leb (Lists.distinct pyobj_eqb (filter pyobj_notnull v)))
  end.

(** One reduced value of column [y] per key: the reduction of the entries of
    [y] on the rows where [x] holds the key. *)
Definition aggregate (h : how) (keys : list cell) (x y : Series) : result Series :=
  match y with
  | Numeric v =>
      Ok (Numeric (map (fun k => reduce h (Lists.group_values cell_eqb k (cells x) v)) keys))
  | Boolean v =>
      Ok (Numeric (map (fun k =>
            reduce h (map number_of_bool (Lists.group_values cell_eqb k (cells x) v))) keys))
  | Object v =>
      match h with
      | Sum =>
          bind (traverse (fun k => text_sum (Lists.group_values cell_eqb k (cells x) v)) keys)
               (fun l => Ok (Object (map PStr l)))
      | Mean => Raise (TypeError "agg function failed [how->mean,dtype->object]")
      end
  end.

(** [df.groupby(x)[y].sum().reset_index()] (and [.mean()]): a frame of two
    columns, the keys under the name of [x] and the reduced values under the
    name of [y].  [reset_index] refuses to insert the key column under a name
    the frame already has. *)
Definition groupby_agg (h : how) (x y : string) (df : DataFrame) : result DataFrame :=
  bind (getitem x df) (fun xs =>
  bind (getitem y df) (fun ys =>
  let keys := group_keys xs in
  bind (aggregate h (cells keys) xs ys) (fun vals =>
  if String.eqb x y
  then Raise (ValueError ("cannot insert " ++ x ++ ", already exists")%string)
  else Ok [ {| col_name := x; col_data := keys |};
            {| col_name := y; col_data := vals |} ]))).

(** *** [value_counts] *)

(** [s.value_counts()]: every value that is not missing with the number of
    its occurrences, most frequent first.  pandas leaves the order of values
    of equal frequency to its sort; here they stay in order of first
    appearance, and no theorem below depends on it.  The result is a series
    of counts indexed by value, here the list of its (index, value) pairs. *)
Definition value_counts (s : Series) : list (cell * nat) :=
  let cs := filter notnull (cells s) in
  Lists.sort (fun a b => snd b <=? snd a)
             (map (fun k => (k, Lists.count cell_eqb k cs)) (Lists.distinct cell_eqb cs)).

(** *** [duplicated] *)

Definition row (df : DataFrame) (i : nat) : list cell :=
  map (fun c => nth i (cells (col_data c)) (CObj PNaN)) df.

Definition rows (df : DataFrame) : list (list cell) :=
  map (row df) (seq 0 (len df)).

Fixpoint row_eqb (r1 r2 : list cell) : bool :=
  match r1, r2 with
  | [], [] => true
  | a :: r1', b :: r2' => cell_eqb a b && row_eqb r1' r2'
  | _, _ => false
  end.

Fixpoint duplicated_from (seen rs : list (list cell)) : list bool :=
  match rs with
  | [] => []
  | r :: rs' => existsb (row_eqb r) seen :: duplicated_from (r :: seen) rs'
  end.

(** [df.duplicated()]: for each row, whether an earlier row equals it. *)
Definition duplicated (df : DataFrame) : list bool := duplicated_from [] (rows df).

(** [df.duplicated().sum()]. *)
Definition duplicated_sum (df : DataFrame) : nat :=
  length (filter (fun b => b) (duplicated df)).

End Pandas.

(** ** The user interface *)

Module Streamlit.
Import Pandas.

Inductive plot_kind := LinePlot | ScatterPlot | BarPlot.

(** A matplotlib figure as far as the script determines it. *)
Inductive figure :=
| Plot (kind : plot_kind) (x y : Series) (xlabel ylabel title : string)
| Pie (values : list nat) (labels : list cell) (title : string).

(** What a render cycle puts on the page, widgets included.  The statistics
    of [df.info()] and [df.describe()] are the engine's; the element records
    the frame they are computed from.  The page configuration and the layout
    containers (columns, tabs, expander) show nothing of their own and are
    left out. *)
Inductive element :=
| Title (body : string)
| Markdown (body : string)
| Text (body : string)
| FileUploader (label : string) (types : list string)
| Success (body : string)
| Error (body : string)
| Exception (e : exn)
| Notice (body : string)
| Warning (body : string)
| Dataframe (df : DataFrame)
| Metric (label : string) (value : nat)
| TextArea (label : string) (info_of : DataFrame)
| Statistics (described : DataFrame)
| Multiselect (label : string) (options : list string)
| Slider (label : string) (min_value max_value value : Z)
| Checkbox (label : string)
| Selectbox (label : string) (options : list string)
| Radio (label : string) (options : list string)
| Button (label : string)
| Pyplot (fig : figure).

(** How a run of the script ends: it reaches its last line, [st.stop()]
    halts it, or an exception nobody catches aborts it. *)
Inductive ending (A : Type) :=
| Returns (a : A)
| Stopped
| Aborted (e : exn).
Arguments Returns {A} a.
Arguments Stopped {A}.
Arguments Aborted {A} e.

(** A piece of script: the elements it shows, in order, and how it ends. *)
Definition script (A : Type) : Type := list element * ending A.

Definition ret {A : Type} (a : A) : script A := ([], Returns a).

Definition and_then {A B : Type} (m : script A) (k : A -> script B) : script B :=
  match m with
  | (shown, Returns a) => let (more, e) := k a in (shown ++ more, e)
  | (shown, Stopped) => (shown, Stopped)
  | (shown, Aborted e) => (shown, Aborted e)
  end.

Definition show (e : element) : script unit := ([e], Returns tt).

(** [st.stop()]. *)
Definition stop {A : Type} : script A := ([], Stopped).

(** A call into the engine outside any [try]. *)
Definition call {A : Type} (r : result A) : script A :=
  match r with
  | Ok a => ret a
  | Raise e => ([], Aborted e)
  end.

Definition shown {A : Type} (m : script A) : list element := fst m.

Declare Scope script_scope.
Delimit Scope script_scope with script.
Notation "x <- m ;; k" := (and_then m (fun x => k))
  (at level 61, m at next level, right associativity) : script_scope.
Notation "m ;; k" := (and_then m (fun _ => k))
  (at level 61, right associativity) : script_scope.

(** The uploaded file: its name, and what each of the two readers makes of
    its bytes (a frame, or the exception the reader raises). *)
Record UploadedFile := {
  name : string;
  read_csv : result DataFrame;
  read_excel : result DataFrame
}.

(** One render cycle's input: the uploaded file and what the widgets return.
    [requested_agg] is the aggregation the user last asked for; the radio
    button returns it only while it is among the options on offer. *)
Record Session := {
  uploaded_file : option UploadedFile;
  selected_col : list string;
  num_rows : Z;
  show_all_data : bool;
  x_axis : string;
  y_axis : string;
  requested_agg : string;
  line_btn : bool;
  scatter_btn : bool;
  bar_btn : bool;
  pie_btn : bool
}.

(** [st.radio(options=...)] returns one of its options: the requested one
    when it is on offer, the first one otherwise. *)
Definition radio (options : list string) (requested : string) : string :=
  if existsb (String.eqb requested) options then requested else hd requested options.

End Streamlit.

(** ** The script *)

Module Datasc.
Import Pandas Streamlit.
Local Open Scope script_scope.

Definition cat (parts : list string) : string := String.concat "" parts.

(** [s.endswith(suffix)]. *)
Definition endswith (s suffix : string) : bool :=
  let n := String.length s in
  let m := String.length suffix in
  (m <=? n) && String.eqb (substring (n - m) m s) suffix.

Definition instructions : string :=
"
<div style='background-color: #e3f2fd; padding: 1.5rem; border-radius: 8px; border-left: 4px solid #3498db; margin: 1rem 0;'>
    <h3 style='color: #2c3e50; margin-top: 0;'>🚀 Start analyzing your data in 3 steps:</h3>
    <ol style='color: #34495e; font-size: 1.05rem;'>
        <li><strong>Browse files</strong></li>
        <li><strong>Select your file</strong></li>
        <li><strong>Open the file</strong></li>
    </ol>
    <p style='color: #2c3e50; margin-top: 1rem; margin-bottom: 0;'>
        Upload a <strong>CSV</strong> or an <strong>Excel</strong> file to explore your data interactively!
    </p>
</div>
".

Definition footer : string :=
"
    <div style='text-align: center; color: #7f8c8d; margin-top: 3rem;'>
        <p>📊 <strong>Data Analysis Tool</strong> | Upload a file to begin analysis</p>
    </div>
    ".

Definition visualization_note : string :=
"
        **Note:** Only the first 1000 rows of data will be used for visualization to minimize loading time.
        For best results:
        1. Choose appropriate X and Y axes for your chart type
        2. Pie charts only use data from the X-axis
        3. Ensure your selected columns have compatible data types
        ".

(** *** Lines 25-45: reading the file *)

(** Lines 37-38: [bool_col] names the boolean and object columns, and
    [data[bool_col] = data[bool_col].astype('str')] rewrites them as text. *)
Definition bool_col (data : DataFrame) : list string :=
  columns (select_dtypes is_bool_or_object data).

Definition astype_str_columns (labels : list string) (data : DataFrame) : DataFrame :=
  map (fun c =>
         if existsb (String.eqb (col_name c)) labels
         then {| col_name := col_name c; col_data := astype_str (col_data c) |}
         else c)
      data.

(** Lines 30-38, the body of the [try] up to the success message.  A name
    with none of the three extensions leaves [data] unbound, and line 37
    raises [NameError]. *)
Definition read (f : UploadedFile) : result DataFrame :=
  let file_name := name f in
  bind (if endswith file_name ".csv" then read_csv f
        else if endswith file_name ".xlsx" || endswith file_name ".xls" then read_excel f
        else Raise (NameError "data"))
       (fun data => Ok (astype_str_columns (bool_col data) data)).

(** Lines 29-45: the [try] with its handler. *)
Definition load (f : UploadedFile) : script DataFrame :=
  match read f with
  | Ok data =>
      show (Success "✅ File uploaded successfully!") ;;
      ret data
  | Raise e =>
      show (Error "❌ Could not read the file.") ;;
      show (Exception e) ;;
      stop
  end.

(** *** Lines 47-92: preview, overview, summaries *)

Definition preview (data : DataFrame) : script unit :=
  show (Markdown "---") ;;
  show (Text "### 🔎 Preview Of Data") ;;
  show (Dataframe (head 5 data)).

Definition missing_values (data : DataFrame) : nat := isnull_sum_sum data.

Definition overview (data : DataFrame) : script unit :=
  show (Text "### 📇 Data Overview") ;;
  show (Metric "Rows" (len data)) ;;
  show (Metric "Columns" (length data)) ;;
  show (Metric "Missing Values" (missing_values data)) ;;
  show (Metric "Duplicates" (duplicated_sum data)).

Definition summaries (data : DataFrame) : script unit :=
  show (Text "### 📜 Complete Summary Of Dataset") ;;
  show (TextArea "Dataset Info" data) ;;
  (if negb (empty (select_dtypes is_number data))
   then show (Text "### 📑 Statistical Summary of Dataset") ;;
        show (Statistics (select_dtypes is_number data))
   else show (Warning "No numerical data available to summarize.")) ;;
  (if negb (empty (select_dtypes is_bool_or_object data))
   then show (Text "### 🧾 Statistical Summary of Dataset (Non-Numerical)") ;;
        show (Statistics (select_dtypes is_bool_or_object data))
   else show (Warning "No non-numerical data available to summarize.")).

(** *** Lines 94-104: column selection *)

(** The bounds and the start value line 100 gives the slider. *)
Definition slider_min : Z := 5.
Definition slider_max (data : DataFrame) : Z := Z.of_nat (Nat.min (len data) 100).
Definition slider_value : Z := 10.

(** Line 101: [data[selected_col].head(num_rows)]. *)
Definition selection (selected_col : list string) (num_rows : Z) (data : DataFrame)
  : result DataFrame :=
  bind (getitem_list selected_col data) (fun df => Ok (head num_rows df)).

Definition column_selection (data : DataFrame) (s : Session) : script unit :=
  show (Markdown "---") ;;
  show (Text "### ✂️ Select Desired Column For Further Analysis") ;;
  show (Multiselect "Choose columns to display:" (columns data)) ;;
  match selected_col s with
  | _ :: _ =>
      show (Slider "Number of rows to display:" slider_min (slider_max data) slider_value) ;;
      df <- call (selection (selected_col s) (num_rows s) data) ;;
      show (Dataframe df)
  | [] =>
      show (Notice "No column selected. Showing all columns instead.") ;;
      show (Dataframe (head 5 data))
  end.

(** *** Lines 106-213: visualization *)

(** Lines 121-124. *)
Definition subset (show_all_data : bool) (data : DataFrame) : DataFrame :=
  if show_all_data then data else head 1000 data.

(** Lines 135-139. *)
Definition agg_options (x_axis y_axis : string) : list string :=
  if String.eqb x_axis y_axis then ["Raw"] else ["Raw"; "Sum"; "Average"].

(** Lines 141-145. *)
Definition agg_option (s : Session) : string :=
  radio (agg_options (x_axis s) (y_axis s)) (requested_agg s).

(** Lines 148-152. *)
Definition apply_aggregation (agg_option x_axis y_axis : string) (data_viz : DataFrame)
  : result DataFrame :=
  if String.eqb agg_option "Sum" then groupby_agg Sum x_axis y_axis data_viz
  else if String.eqb agg_option "Average" then groupby_agg Mean x_axis y_axis data_viz
  else Ok data_viz.

(** The radio option that asks for each reduction (lines 148 and 150). *)
Definition option_of (h : how) : string :=
  match h with
  | Sum => "Sum"
  | Mean => "Average"
  end.

(** Line 206: [data_viz[x_axis].value_counts().head(10)]. *)
Definition x_axis_counts (x_axis : string) (data_viz : DataFrame) : result (list (cell * nat)) :=
  bind (getitem x_axis data_viz) (fun xs => Ok (firstn 10 (value_counts xs))).

(** Lines 168-202: the three charts over both axes differ in the plot call
    and in their wording. *)
Definition xy_chart (kind : plot_kind) (heading noun : string)
                    (x_axis y_axis agg_option : string) (data_viz : DataFrame) : script unit :=
  show (Text (cat [heading; x_axis; " vs "; y_axis; " ("; agg_option; ")"])) ;;
  xs <- call (getitem x_axis data_viz) ;;
  ys <- call (getitem y_axis data_viz) ;;
  show (Pyplot (Plot kind xs ys x_axis y_axis
                     (cat [noun; " of "; x_axis; " vs "; y_axis; " ("; agg_option; ")"]))).

(** Lines 204-213. *)
Definition pie_chart (x_axis agg_option : string) (data_viz : DataFrame) : script unit :=
  show (Text (cat ["### 🥧 Pie Chart: "; x_axis; " Distribution ("; agg_option; ")"])) ;;
  counts <- call (x_axis_counts x_axis data_viz) ;;
  show (Pyplot (Pie (map snd counts) (map fst counts)
                    (cat ["Distribution of "; x_axis; " ("; agg_option; ")"]))).

Definition when (b : bool) (m : script unit) : script unit :=
  if b then m else ret tt.

(** Lines 106-145: the controls of the chart. *)
Definition controls (data : DataFrame) (s : Session) : script unit :=
  show (Markdown "---") ;;
  show (Text "### 📈 Data Visualization") ;;
  show (Notice visualization_note) ;;
  show (Checkbox "Show all available data. **it may cause longer processing time") ;;
  let data_viz := subset (show_all_data s) data in
  let columns := columns data_viz in
  show (Selectbox "X-axis:" columns) ;;
  show (Selectbox "Y-axis:" columns) ;;
  when (String.eqb (x_axis s) (y_axis s))
       (show (Warning "⚠️ Sum and Average are disabled because X-axis and Y-axis are the same column.")) ;;
  show (Radio "Select how to aggregate data:" (agg_options (x_axis s) (y_axis s))).

(** Lines 154-213: the four buttons and the chart of each one pressed, all
    drawn from the same [data_viz]. *)
Definition charts (s : Session) (data_viz : DataFrame) : script unit :=
  let x_axis := x_axis s in
  let y_axis := y_axis s in
  let agg_option := agg_option s in
  show (Text "##### Select Visualization Type:") ;;
  show (Button "📈 Line Chart") ;;
  show (Button "🔵 Scatter Plot") ;;
  show (Button "📊 Bar Chart") ;;
  show (Button "🥧 Pie Chart") ;;
  show (Text "*Pie chart will only generate values from X-axis") ;;
  when (line_btn s)
       (xy_chart LinePlot "### 📈 Line Chart: " "Line Graph" x_axis y_axis agg_option data_viz) ;;
  when (scatter_btn s)
       (xy_chart ScatterPlot "### 🔵 Scatter Plot: " "Scatter Plot" x_axis y_axis agg_option data_viz) ;;
  when (bar_btn s)
       (xy_chart BarPlot "### 📊 Bar Chart: " "Bar Chart" x_axis y_axis agg_option data_viz) ;;
  when (pie_btn s)
       (pie_chart x_axis agg_option data_viz).

(** The frame the charts are drawn from: the subset of lines 121-124, then
    the aggregation of lines 148-152 on it. *)
Definition chart_data (data : DataFrame) (s : Session) : result DataFrame :=
  apply_aggregation (agg_option s) (x_axis s) (y_axis s) (subset (show_all_data s) data).

Definition visualization (data : DataFrame) (s : Session) : script unit :=
  controls data s ;;
  data_viz <- call (chart_data data s) ;;
  charts s data_viz.

(** Everything below the [try]: lines 47-213. *)
Definition explore (data : DataFrame) (s : Session) : script unit :=
  preview data ;;
  overview data ;;
  summaries data ;;
  column_selection data s ;;
  visualization data s.

(** *** The whole script *)

Definition main (s : Session) : script unit :=
  show (Title "📊 Analyze Your Data") ;;
  show (Markdown instructions) ;;
  show (FileUploader "📁 Upload CSV or Excel file" ["csv"; "xlsx"]) ;;
  match uploaded_file s with
  | Some f => data <- load f ;; explore data s
  | None => ret tt
  end ;;
  match uploaded_file s with
  | None => show (Markdown "---") ;; show (Markdown footer)
  | Some _ => ret tt
  end.

End Datasc.

(** ** Example inputs *)

Module Examples.
Import Pandas Streamlit Datasc.

Definition text (l : list string) : Series := Object (map PStr l).

Definition numbers (l : list Z) : Series := Numeric (map (fun z => Some (num z)) l).

(** A CSV file, given by the table [read_csv] makes of it. *)
Definition csv (file_name : string) (table : DataFrame) : UploadedFile :=
  {| name := file_name;
     read_csv := Ok table;
     read_excel := Raise (ValueError "Excel file format cannot be determined") |}.

(** A file no reader can parse. *)
Definition broken (file_name : string) : UploadedFile :=
  {| name := file_name;
     read_csv := Raise (ParserError "Error tokenizing data");
     read_excel := Raise (ValueError "Excel file format cannot be determined") |}.

(** A render cycle with the widgets untouched, but for the column selection,
    the two axes, the aggregation and the pie button. *)
Definition session (f : UploadedFile) (selected : list string)
                   (x y agg : string) (pie : bool) : Session :=
  {| uploaded_file := Some f;
     selected_col := selected;
     num_rows := 10;
     show_all_data := false;
     x_axis := x;
     y_axis := y;
     requested_agg := agg;
     line_btn := false;
     scatter_btn := false;
     bar_btn := false;
     pie_btn := pie |}.

(** The table of the specification's example. *)
Definition city_sales : DataFrame :=
  [ {| col_name := "city"; col_data := text ["A"; "B"; "A"] |};
    {| col_name := "sales"; col_data := numbers [10; 20; 30]%Z |} ].

(** Two columns of six rows. *)
Definition ab : DataFrame :=
  [ {| col_name := "a"; col_data := numbers [1; 2; 3; 4; 5; 6]%Z |};
    {| col_name := "b"; col_data := text ["u"; "v"; "w"; "x"; "y"; "z"] |} ].

(** A table with a missing name and a missing age, as [read_csv] delivers
    it: the empty field of the text column is NaN in an object column. *)
Definition people : DataFrame :=
  [ {| col_name := "name"; col_data := Object [PStr "Ann"; PNaN; PStr "Eve"] |};
    {| col_name := "age"; col_data := Numeric [Some (num 31); Some (num 45); None] |} ].


(** Twelve different values with falling frequencies 12, 11, ..., 1. *)
Definition letters : list string :=
  ["a"; "b"; "c"; "d"; "e"; "f"; "g"; "h"; "i"; "j"; "k"; "l"].

Definition staircase : DataFrame :=
  [ {| col_name := "letter";
       col_data := text (flat_map (fun n => firstn n letters) (seq 1 12)) |} ].

(** 1000 rows with X = 1, then one row with X = 2; Y is 1 throughout. *)
Definition long : DataFrame :=
  [ {| col_name := "x";
       col_data := Numeric (repeat (Some (num 1)) 1000 ++ [Some (num 2)]) |};
    {| col_name := "y"; col_data := Numeric (repeat (Some (num 1)) 1001) |} ].

(** A table with a boolean column, as [read_csv] delivers it. *)
Definition members : DataFrame :=
  [ {| col_name := "name"; col_data := Object [PStr "Ann"; PStr "Bob"; PStr "Ann"] |};
    {| col_name := "active"; col_data := Boolean [true; false; true] |};
    {| col_name := "score"; col_data := numbers [7; 9; 7]%Z |} ].

(** Average of a text column: X = score, Y = name. *)
Definition average_of_names : Session :=
  session (csv "members.csv" members) [] "score" "name" "Average" true.

(** The example table summed per city, and a cycle that asks for its bar
    chart. *)
Definition city_sums : DataFrame :=
  [ {| col_name := "city"; col_data := text ["A"; "B"] |};
    {| col_name := "sales"; col_data := numbers [40; 20]%Z |} ].


(** A well-formed CSV file under a name in capitals. *)
Definition capitals : UploadedFile := csv "REPORT.CSV" city_sales.

(** A CSV file with a header line and no data line: [read_csv] delivers
    object columns without rows. *)
Definition header_only : DataFrame :=
  [ {| col_name := "city"; col_data := Object [] |};
    {| col_name := "sales"; col_data := Object [] |} ].


End Examples.

(** * Properties *)

(** ** The list programs *)

Module ListFacts.
Import Lists.

Lemma filter_all {A : Type} (f : A -> bool) (l : list A) :
  (forall x, In x l -> f x = true) -> filter f l = l.
Proof.
  induction l as [|a l IH]; intros H; simpl.
  - reflexivity.
  - rewrite (H a (or_introl eq_refl)), IH; [reflexivity|].
    intros x Hx. apply H. now right.
Qed.

Lemma NoDup_map_injective {A B : Type} (f : A -> B) (l : list A) :
  (forall x y, f x = f y -> x = y) -> NoDup l -> NoDup (map f l).
Proof.
  intros Hinj Hl. induction Hl as [|a l Hnotin Hl IH]; simpl; constructor.
  - intros Hin. apply in_map_iff in Hin. destruct Hin as [x [Hfx Hx]].
    apply Hinj in Hfx. subst x. contradiction.
  - exact IH.
Qed.

Section DistinctFacts.
Context {K : Type}.
Variable eqb : K -> K -> bool.
Hypothesis eqb_eq : forall a b, eqb a b = true <-> a = b.

Lemma eqb_refl (a : K) : eqb a a = true.
Proof. now apply eqb_eq. Qed.

Lemma eqb_neq (a b : K) : eqb a b = false <-> a <> b.
Proof.
  split.
  - intros H E. apply eqb_eq in E. congruence.
  - intros H. destruct (eqb a b) eqn:E; [|reflexivity].
    apply eqb_eq in E. contradiction.
Qed.

Lemma In_distinct (l : list K) (x : K) : In x (distinct eqb l) <-> In x l.
Proof.
  induction l as [|k l IH]; simpl.
  - reflexivity.
  - rewrite filter_In, IH. split.
    + intros [E | [Hin _]]; auto.
    + intros [E | Hin]; [now left|].
      destruct (eqb k x) eqn:E.
      * left. now apply eqb_eq.
      * right. split; [exact Hin | reflexivity].
Qed.

Lemma NoDup_distinct (l : list K) : NoDup (distinct eqb l).
Proof.
  induction l as [|k l IH]; simpl; constructor.
  - rewrite filter_In. intros [_ H]. rewrite eqb_refl in H. discriminate.
  - now apply NoDup_filter.
Qed.



End DistinctFacts.

Section SortFacts.
Context {A : Type}.
Variable leb : A -> A -> bool.

Lemma insert_perm (x : A) (l : list A) : Permutation (insert leb x l) (x :: l).
Proof.
  induction l as [|y l IH]; simpl.
  - apply Permutation_refl.
  - destruct (leb x y).
    + apply Permutation_refl.
    + eapply perm_trans; [apply perm_skip, IH | apply perm_swap].
Qed.

Lemma sort_perm (l : list A) : Permutation (sort leb l) l.
Proof.
  induction l as [|x l IH]; simpl.
  - apply perm_nil.
  - eapply perm_trans; [apply insert_perm | now apply perm_skip].
Qed.

Lemma sort_length (l : list A) : length (sort leb l) = length l.
Proof. apply Permutation_length, sort_perm. Qed.


Lemma NoDup_sort (l : list A) : NoDup l -> NoDup (sort leb l).
Proof. apply Permutation_NoDup, Permutation_sym, sort_perm. Qed.

Hypothesis leb_total : forall a b, leb a b = false -> leb b a = true.
Hypothesis leb_trans : forall a b c, leb a b = true -> leb b c = true -> leb a c = true.

Lemma insert_sorted (x : A) (l : list A) :
  StronglySorted (fun a b => leb a b = true) l ->
  StronglySorted (fun a b => leb a b = true) (insert leb x l).
Proof.
  induction 1 as [|y l Hl IH Hy]; simpl.
  - constructor; constructor.
  - destruct (leb x y) eqn:E.
    + constructor; [now constructor|].
      constructor; [exact E|].
      eapply Forall_impl; [|exact Hy]. intros a Ha. now apply leb_trans with y.
    + constructor; [exact IH|].
      apply Forall_forall. intros a Ha.
      apply (Permutation_in _ (insert_perm x l)) in Ha. destruct Ha as [Ha | Ha].
      * subst a. now apply leb_total.
      * rewrite Forall_forall in Hy. now apply Hy.
Qed.

Lemma sort_sorted (l : list A) : StronglySorted (fun a b => leb a b = true) (sort leb l).
Proof.
  induction l as [|x l IH]; simpl.
  - constructor.
  - now apply insert_sorted.
Qed.
End SortFacts.

Section FilterCount.
Context {K : Type}.
Variable eqb : K -> K -> bool.
Hypothesis eqb_eq : forall a b, eqb a b = true <-> a = b.

End FilterCount.

Section Prefix.
Context {A : Type}.




Lemma StronglySorted_impl (R R' : A -> A -> Prop) (l : list A) :
  (forall a b, R a b -> R' a b) -> StronglySorted R l -> StronglySorted R' l.
Proof.
  intros H. induction 1 as [|x l Hl IH Hx]; constructor.
  - exact IH.
  - eapply Forall_impl; [|exact Hx]. intros b. apply H.
Qed.


End Prefix.

End ListFacts.

(** ** The dataframe engine *)

Module PandasFacts.
Import Lists ListFacts Pandas.

(** *** Equality of cells *)

Lemma num_eqb_eq (a b : number) : num_eqb a b = true <-> a = b.
Proof.
  destruct a as [n d], b as [n' d']. unfold num_eqb. simpl.
  rewrite andb_true_iff, Z.eqb_eq, Pos.eqb_eq. split.
  - intros [-> ->]. reflexivity.
  - intros E. inversion E. auto.
Qed.

Lemma option_num_eqb_eq (a b : option number) : option_num_eqb a b = true <-> a = b.
Proof.
  destruct a as [x|], b as [y|]; simpl; try (split; [discriminate | congruence]).
  - rewrite num_eqb_eq. split; congruence.
  - split; reflexivity.
Qed.

Lemma pyobj_eqb_eq (a b : pyobj) : pyobj_eqb a b = true <-> a = b.
Proof.
  destruct a as [s|x|], b as [t|y|]; simpl; try (split; [discriminate | congruence]).
  - rewrite String.eqb_eq. split; congruence.
  - rewrite Bool.eqb_true_iff. split; congruence.
  - split; reflexivity.
Qed.

Lemma cell_eqb_eq (a b : cell) : cell_eqb a b = true <-> a = b.
Proof.
  destruct a as [x|x|x], b as [y|y|y]; simpl; try (split; [discriminate | congruence]).
  - rewrite option_num_eqb_eq. split; congruence.
  - rewrite Bool.eqb_true_iff. split; congruence.
  - rewrite pyobj_eqb_eq. split; congruence.
Qed.


(** *** Group keys *)


Lemma group_keys_NoDup (s : Series) : NoDup (cells (group_keys s)).
Proof.
  destruct s as [v|v|v]; simpl.
  - rewrite map_map. apply NoDup_map_injective; [intros x y E; congruence|].
    apply NoDup_sort, NoDup_distinct, num_eqb_eq.
  - apply NoDup_map_injective; [intros x y E; congruence|].
    apply NoDup_sort, NoDup_distinct, Bool.eqb_true_iff.
  - apply NoDup_map_injective; [intros x y E; congruence|].
    apply NoDup_sort, NoDup_distinct, pyobj_eqb_eq.
Qed.



(** *** [head] *)

Lemma slice_stop_nonneg (n : Z) (size : nat) :
  (0 <= n)%Z -> slice_stop n size = Z.to_nat n.
Proof. intros H. unfold slice_stop. now apply Z.leb_le in H as ->. Qed.

Lemma cells_head (n : Z) (s : Series) :
  cells (series_head n s) = firstn (slice_stop n (series_len s)) (cells s).
Proof.
  destruct s as [v|v|v]; unfold series_len; simpl; rewrite length_map;
    symmetry; apply firstn_map.
Qed.

Lemma series_len_head (n : Z) (s : Series) :
  series_len (series_head n s) = Nat.min (slice_stop n (series_len s)) (series_len s).
Proof.
  unfold series_len at 1. rewrite cells_head. apply length_firstn.
Qed.

Lemma columns_head (n : Z) (df : DataFrame) : columns (head n df) = columns df.
Proof. unfold columns, head. rewrite map_map. reflexivity. Qed.

Lemma len_head (n : Z) (df : DataFrame) :
  len (head n df) = Nat.min (slice_stop n (len df)) (len df).
Proof. destruct df as [|c df]; simpl; [now rewrite Nat.min_0_r | apply series_len_head]. Qed.

(** *** Column access *)

Lemma lookup_Some (label : string) (df : DataFrame) (c : Column) :
  lookup label df = Some c -> In c df /\ col_name c = label.
Proof.
  unfold lookup. intros H. apply find_some in H. destruct H as [Hin E].
  split; [exact Hin | now apply String.eqb_eq].
Qed.

Lemma lookup_In (label : string) (df : DataFrame) :
  In label (columns df) -> exists c, lookup label df = Some c.
Proof.
  unfold lookup, columns. induction df as [|c df IH]; simpl; intros H.
  - contradiction.
  - destruct (String.eqb (col_name c) label) eqn:E.
    + now exists c.
    + destruct H as [H | H]; [|now apply IH].
      apply String.eqb_neq in E. contradiction.
Qed.

(** The columns [df[labels]] returns are those of [df] under these labels,
    one per label and in the order of the labels. *)
Lemma getitem_list_Ok (labels : list string) (df : DataFrame) :
  incl labels (columns df) ->
  exists out, getitem_list labels df = Ok out /\
              Forall2 (fun l c => lookup l df = Some c) labels out.
Proof.
  induction labels as [|l labels IH]; intros H; simpl.
  - exists []. split; [reflexivity | constructor].
  - destruct (lookup_In l df) as [c Hc]; [apply H; now left|].
    destruct IH as [out [Hout Hall]]; [intros x Hx; apply H; now right|].
    rewrite Hc, Hout. simpl. exists (c :: out). split; [reflexivity|].
    now constructor.
Qed.

Lemma Forall2_lookup_columns (labels : list string) (df out : DataFrame) :
  Forall2 (fun l c => lookup l df = Some c) labels out -> columns out = labels.
Proof.
  induction 1 as [|l c labels out Hc _ IH]; simpl.
  - reflexivity.
  - apply lookup_Some in Hc. destruct Hc as [_ Hc]. now rewrite Hc, IH.
Qed.

(** *** [value_counts] *)






End PandasFacts.

(** ** Scripts *)

Module StreamlitFacts.
Import Pandas Streamlit.

(** What a piece of script has shown stays shown, whatever follows. *)
Lemma shown_first {A B : Type} (m : script A) (k : A -> script B) (e : element) :
  In e (shown m) -> In e (shown (and_then m k)).
Proof.
  destruct m as [out [a| |x]]; simpl; intros H; try exact H.
  destruct (k a) as [more r]. simpl. apply in_or_app. now left.
Qed.

Lemma shown_next {A B : Type} (m : script A) (k : A -> script B) (a : A) (e : element) :
  snd m = Returns a -> In e (shown (k a)) -> In e (shown (and_then m k)).
Proof.
  destruct m as [out r]. simpl. intros -> H.
  destruct (k a) as [more r]. simpl in *. apply in_or_app. now right.
Qed.

Lemma radio_offered (options : list string) (requested : string) :
  options <> [] -> In (radio options requested) options.
Proof.
  intros H. unfold radio. destruct (existsb (String.eqb requested) options) eqn:E.
  - apply existsb_exists in E. destruct E as [o [Ho E]].
    apply String.eqb_eq in E. now subst o.
  - destruct options as [|o options]; [contradiction | now left].
Qed.

End StreamlitFacts.

(** ** The script's claims *)

Module DatascFacts.
Import Lists ListFacts Pandas PandasFacts Streamlit StreamlitFacts Datasc Examples.

(** *** Column selection (lines 96-104) *)

Lemma wf_column_len (data : DataFrame) (label : string) (c : Column) :
  wf data -> lookup label data = Some c -> series_len (col_data c) = len data.
Proof.
  intros [_ Hlen] Hc. apply lookup_Some in Hc. destruct Hc as [Hin _].
  rewrite Forall_forall in Hlen. now apply Hlen.
Qed.

Lemma column_selection_shows (data : DataFrame) (s : Session) (df : DataFrame) :
  selected_col s <> [] ->
  selection (selected_col s) (num_rows s) data = Ok df ->
  In (Dataframe df) (shown (column_selection data s)).
Proof.
  intros Hsel Hdf. unfold column_selection.
  destruct (selected_col s) as [|l ls] eqn:E; [contradiction|].
  rewrite Hdf. simpl. tauto.
Qed.

(** C1, as the code has it.  With at least one column selected, all of
    them columns of the dataset, and a slider value N that is not negative,
    the column-selection display is a frame of exactly min(N, row count)
    rows whose columns are the selected ones in the order of the selection
    list, each holding the first rows of the dataset's column of that
    name. *)
Theorem selection_head_in_pick_order (data : DataFrame) (s : Session) :
  wf data ->
  selected_col s <> [] ->
  incl (selected_col s) (columns data) ->
  (0 <= num_rows s)%Z ->
  exists df,
    selection (selected_col s) (num_rows s) data = Ok df /\
    In (Dataframe df) (shown (column_selection data s)) /\
    len df = Nat.min (Z.to_nat (num_rows s)) (len data) /\
    columns df = selected_col s /\
    Forall2 (fun label c =>
               exists c0, lookup label data = Some c0 /\
                          cells (col_data c)
                          = firstn (Z.to_nat (num_rows s)) (cells (col_data c0)))
            (selected_col s) df.
Proof.
  intros Hwf Hsel Hincl Hn.
  destruct (getitem_list_Ok _ _ Hincl) as [out [Hout Hall]].
  assert (Hdf : selection (selected_col s) (num_rows s) data = Ok (head (num_rows s) out))
    by (unfold selection; now rewrite Hout).
  exists (head (num_rows s) out). split; [exact Hdf|].
  split; [now apply column_selection_shows|].
  split; [|split].
  - rewrite len_head, slice_stop_nonneg by exact Hn. f_equal.
    destruct Hall as [|l c ls out' Hc _]; [contradiction|].
    simpl. now apply wf_column_len with l.
  - rewrite columns_head. now apply Forall2_lookup_columns with data.
  - clear Hout Hdf Hsel Hincl. induction Hall as [|l c ls out' Hc _ IH]; simpl; constructor.
    + exists c. split; [exact Hc|]. simpl.
      now rewrite cells_head, slice_stop_nonneg.
    + exact IH.
Qed.

Lemma selection_head_in_pick_order_witness :
  exists df,
    selection ["b"; "a"] 10 ab = Ok df /\
    In (Dataframe df) (shown (column_selection ab (session (csv "ab.csv" ab) ["b"; "a"] "a" "b" "Raw" false))) /\
    len df = Nat.min (Z.to_nat 10) (len ab) /\
    columns df = ["b"; "a"] /\
    Forall2 (fun label c =>
               exists c0, lookup label ab = Some c0 /\
                          cells (col_data c) = firstn (Z.to_nat 10) (cells (col_data c0)))
            ["b"; "a"] df.
Proof.
  apply (selection_head_in_pick_order ab
           (session (csv "ab.csv" ab) ["b"; "a"] "a" "b" "Raw" false)).
  - split.
    + repeat constructor; simpl; intuition discriminate.
    + repeat constructor.
  - discriminate.
  - intros l [<- | [<- | []]]; simpl; tauto.
  - simpl. lia.
Defined.

(** C1, as the specification words it, fails: picking [b] before [a] shows
    [b] before [a], not the dataset's order [a], [b]. *)
Lemma selection_not_in_dataset_order :
  columns ab = ["a"; "b"] /\
  exists df,
    selection ["b"; "a"] 5 ab = Ok df /\
    columns df = ["b"; "a"] /\
    columns df <> filter (fun c => existsb (String.eqb c) ["b"; "a"]) (columns ab).
Proof.
  split; [reflexivity|].
  eexists. split; [reflexivity|]. split; [reflexivity | discriminate].
Qed.

(** C10.  With a column selected, line 100 builds the slider with minimum
    5, maximum min(row count, 100) and start value 10; the minimum is at
    most the maximum exactly when the dataset has at least 5 rows, and below
    5 rows the maximum is under the minimum. *)
Theorem slider_bounds_need_five_rows (data : DataFrame) (s : Session) :
  selected_col s <> [] ->
  In (Slider "Number of rows to display:" 5 (Z.of_nat (Nat.min (len data) 100)) 10)
     (shown (column_selection data s)) /\
  ((slider_min <= slider_max data)%Z <-> 5 <= len data) /\
  (len data < 5 -> (slider_max data < slider_min)%Z).
Proof.
  intros Hsel. split; [|split].
  - unfold column_selection.
    destruct (selected_col s) as [|l ls]; [contradiction|].
    do 3 (eapply shown_next; [reflexivity|]).
    apply shown_first. now left.
  - unfold slider_min, slider_max. lia.
  - unfold slider_min, slider_max. lia.
Qed.

Lemma slider_bounds_need_five_rows_witness :
  In (Slider "Number of rows to display:" 5 (Z.of_nat (Nat.min (len city_sales) 100)) 10)
     (shown (column_selection city_sales
               (session (csv "sales.csv" city_sales) ["city"] "city" "sales" "Raw" false))) /\
  ((slider_min <= slider_max city_sales)%Z <-> 5 <= len city_sales) /\
  (len city_sales < 5 -> (slider_max city_sales < slider_min)%Z).
Proof.
  apply (slider_bounds_need_five_rows city_sales
           (session (csv "sales.csv" city_sales) ["city"] "city" "sales" "Raw" false)).
  discriminate.
Defined.

(** *** Missing values (lines 37-38 and 61) *)

Ltac in_list := simpl; repeat first [left; reflexivity | right].

Lemma isnull_sum_astype_str (s : Series) :
  is_bool_or_object s = true -> isnull_sum (astype_str s) = 0.
Proof.
  destruct s as [v|v|v]; simpl; intros H; try discriminate;
    unfold isnull_sum; simpl; rewrite map_map;
    induction v as [|a v IH]; simpl; auto.
Qed.

Lemma isnull_sum_astype_str_numeric (s : Series) :
  is_number s = true -> astype_str s = s.
Proof. destruct s; simpl; intros H; [reflexivity | discriminate | discriminate]. Qed.

Lemma number_or_not (s : Series) : is_number s = negb (is_bool_or_object s).
Proof. now destruct s. Qed.

Lemma missing_after_astype (labels : list string) (df : DataFrame) :
  (forall c, In c df -> is_bool_or_object (col_data c) = true -> In (col_name c) labels) ->
  isnull_sum_sum (astype_str_columns labels df)
  = isnull_sum_sum (select_dtypes is_number df).
Proof.
  induction df as [|c df IH]; intros H; simpl.
  - reflexivity.
  - rewrite IH by (intros c' Hc'; apply H; now right).
    rewrite number_or_not.
    destruct (is_bool_or_object (col_data c)) eqn:Ebo; simpl.
    + assert (Hin : existsb (String.eqb (col_name c)) labels = true).
      { apply existsb_exists. exists (col_name c). split.
        - apply H; [now left | exact Ebo].
        - apply String.eqb_refl. }
      rewrite Hin. simpl. now rewrite isnull_sum_astype_str.
    + destruct (existsb (String.eqb (col_name c)) labels); simpl; [|reflexivity].
      rewrite isnull_sum_astype_str_numeric; [reflexivity|].
      now rewrite number_or_not, Ebo.
Qed.

(** What the overview counts after lines 37-38: the missing entries of the
    numeric columns, and of no other column. *)
Lemma missing_values_after_load (f : UploadedFile) (data : DataFrame) :
  read f = Ok data ->
  exists table, (read_csv f = Ok table \/ read_excel f = Ok table) /\
                missing_values data = isnull_sum_sum (select_dtypes is_number table).
Proof.
  unfold read. intros H.
  assert (Hnorm : forall table,
             missing_values (astype_str_columns (bool_col table) table)
             = isnull_sum_sum (select_dtypes is_number table)).
  { intros table. apply missing_after_astype. intros c Hc Hbo.
    unfold bool_col, columns, select_dtypes. apply in_map, filter_In. now split. }
  destruct (endswith (name f) ".csv").
  - destruct (read_csv f) as [table|e] eqn:E; simpl in H; [|discriminate].
    inversion H. exists table. split; [now left | apply Hnorm].
  - destruct (endswith (name f) ".xlsx" || endswith (name f) ".xls"); [|discriminate].
    destruct (read_excel f) as [table|e] eqn:E; simpl in H; [|discriminate].
    inversion H. exists table. split; [now right | apply Hnorm].
Qed.

(** C2 on a table with one missing name and one missing age: the uploaded
    table has two missing entries, the dataset after lines 37-38 counts one,
    and the overview shows 1. *)
Theorem missing_text_is_not_counted :
  isnull_sum_sum people = 2 /\
  exists data,
    read (csv "people.csv" people) = Ok data /\
    getitem "name" data = Ok (text ["Ann"; "nan"; "Eve"]) /\
    missing_values data = 1 /\
    In (Metric "Missing Values" 1)
       (shown (main (session (csv "people.csv" people) [] "name" "age" "Raw" false))).
Proof.
  split; [reflexivity|].
  eexists. split; [reflexivity|]. split; [reflexivity|]. split; [reflexivity|].
  in_list.
Qed.

(** *** Aggregation (lines 134-152) *)

Lemma apply_aggregation_option (h : how) (x_axis y_axis : string) (data_viz : DataFrame) :
  apply_aggregation (option_of h) x_axis y_axis data_viz = groupby_agg h x_axis y_axis data_viz.
Proof. destruct h; reflexivity. Qed.

(** The reductions compute the sum and the mean of the rationals they are
    given; keeping results in lowest terms does not change their value. *)
Lemma total_sum (l : list number) : (total l == fold_right Qplus 0 l)%Q.
Proof.
  induction l as [|a l IH]; simpl.
  - reflexivity.
  - unfold num_add. now rewrite Qred_correct, IH.
Qed.

Lemma reduce_sum (v : list (option number)) :
  exists q, reduce Sum v = Some q /\ (q == fold_right Qplus 0 (non_missing v))%Q.
Proof. exists (total (non_missing v)). split; [reflexivity | apply total_sum]. Qed.

Lemma reduce_mean (v : list (option number)) :
  non_missing v <> [] ->
  exists q, reduce Mean v = Some q /\
            (q == fold_right Qplus 0 (non_missing v)
                  / inject_Z (Z.of_nat (length (non_missing v))))%Q.
Proof.
  intros H. unfold reduce. destruct (non_missing v) as [|a l]; [contradiction|].
  eexists. split; [reflexivity|].
  unfold num_div, num. rewrite Qred_correct, total_sum. reflexivity.
Qed.




(** C4.  When the X-axis and the Y-axis are the same column, the radio
    button offers Raw only, it returns Raw whatever was requested before,
    and the charts are drawn from the subset as it is, with no grouping. *)
Theorem same_axes_force_raw (data : DataFrame) (s : Session) :
  x_axis s = y_axis s ->
  agg_options (x_axis s) (y_axis s) = ["Raw"] /\
  In (Radio "Select how to aggregate data:" ["Raw"]) (shown (visualization data s)) /\
  agg_option s = "Raw" /\
  chart_data data s = Ok (subset (show_all_data s) data).
Proof.
  intros Hxy.
  assert (Hopts : agg_options (x_axis s) (y_axis s) = ["Raw"])
    by (unfold agg_options; now rewrite Hxy, String.eqb_refl).
  assert (Hopt : agg_option s = "Raw").
  { unfold agg_option. rewrite Hopts. unfold radio. simpl.
    destruct (String.eqb (requested_agg s) "Raw") eqn:E; simpl; [|reflexivity].
    now apply String.eqb_eq in E. }
  split; [exact Hopts|]. split; [|split; [exact Hopt|]].
  - unfold visualization. apply shown_first. unfold controls.
    rewrite Hopts, Hxy, String.eqb_refl. in_list.
  - unfold chart_data. now rewrite Hopt.
Qed.

Lemma same_axes_force_raw_witness :
  agg_options "city" "city" = ["Raw"] /\
  In (Radio "Select how to aggregate data:" ["Raw"])
     (shown (visualization city_sales
               (session (csv "sales.csv" city_sales) [] "city" "city" "Sum" true))) /\
  agg_option (session (csv "sales.csv" city_sales) [] "city" "city" "Sum" true) = "Raw" /\
  chart_data city_sales (session (csv "sales.csv" city_sales) [] "city" "city" "Sum" true)
  = Ok (subset false city_sales).
Proof.
  apply (same_axes_force_raw city_sales
           (session (csv "sales.csv" city_sales) [] "city" "city" "Sum" true)).
  reflexivity.
Defined.

(** *** The pie chart (lines 204-213) *)





(** Twelve values of frequencies 12 down to 1: the ten most frequent are
    kept, [k] and [l] are not. *)
Example staircase_slices :
  x_axis_counts "letter" staircase
  = Ok (combine (map (fun l => CObj (PStr l)) (firstn 10 letters)) [12; 11; 10; 9; 8; 7; 6; 5; 4; 3]).
Proof. vm_compute. reflexivity. Qed.

(** C6.  The table of columns city and sales with the rows (A,10), (B,20),
    (A,30): Sum over X = city and Y = sales gives the two rows (A,40) and
    (B,20), and the pie chart on X = city with Raw has the slices A and B
    with the counts 2 and 1. *)
Theorem city_sales_sum_and_pie :
  exists data,
    read (csv "sales.csv" city_sales) = Ok data /\
    apply_aggregation "Sum" "city" "sales" (subset false data)
    = Ok [ {| col_name := "city"; col_data := text ["A"; "B"] |};
           {| col_name := "sales"; col_data := numbers [40; 20]%Z |} ] /\
    chart_data data (session (csv "sales.csv" city_sales) [] "city" "sales" "Sum" false)
    = Ok [ {| col_name := "city"; col_data := text ["A"; "B"] |};
           {| col_name := "sales"; col_data := numbers [40; 20]%Z |} ] /\
    x_axis_counts "city" (subset false data)
    = Ok [ (CObj (PStr "A"), 2); (CObj (PStr "B"), 1) ] /\
    In (Pyplot (Pie [2; 1] [CObj (PStr "A"); CObj (PStr "B")] "Distribution of city (Raw)"))
       (shown (main (session (csv "sales.csv" city_sales) [] "city" "sales" "Raw" true))).
Proof.
  exists city_sales. repeat split; try reflexivity. in_list.
Qed.

(** *** Reading the file (lines 28-45) *)

(** An exception of the reader the file's extension selects is an exception
    of the [try] body, and so is the unbound [data] of a file with no known
    extension. *)
Lemma read_raises (f : UploadedFile) (e : exn) :
  read f = Raise e <->
  (endswith (name f) ".csv" = true /\ read_csv f = Raise e) \/
  (endswith (name f) ".csv" = false /\
   endswith (name f) ".xlsx" || endswith (name f) ".xls" = true /\
   read_excel f = Raise e) \/
  (endswith (name f) ".csv" = false /\
   endswith (name f) ".xlsx" || endswith (name f) ".xls" = false /\
   e = NameError "data").
Proof.
  unfold read.
  destruct (endswith (name f) ".csv");
    [|destruct (endswith (name f) ".xlsx" || endswith (name f) ".xls")].
  - destruct (read_csv f) as [table|e']; simpl; split.
    + discriminate.
    + intros [[_ H] | [[H _] | [H _]]]; discriminate.
    + intros H. left. split; [reflexivity | exact H].
    + intros [[_ H] | [[H _] | [H _]]]; [exact H | discriminate | discriminate].
  - destruct (read_excel f) as [table|e']; simpl; split.
    + discriminate.
    + intros [[H _] | [[_ [_ H]] | [_ [H _]]]]; discriminate.
    + intros H. right. left. repeat split. exact H.
    + intros [[H _] | [[_ [_ H]] | [_ [H _]]]]; [discriminate | exact H | discriminate].
  - simpl. split.
    + intros H. inversion H. right. right. repeat split.
    + intros [[H _] | [[_ [H _]] | [_ [_ H]]]]; [discriminate | discriminate | now subst e].
Qed.

(** C7.  When the body of the [try] raises, the cycle shows the title, the
    instructions, the uploader, the error message and the exception, and
    stops there: no preview, overview, summary, column selection or chart is
    shown, and no dataset reaches them. *)
Theorem parse_failure_halts (s : Session) (f : UploadedFile) (e : exn) :
  uploaded_file s = Some f ->
  read f = Raise e ->
  main s = ([ Title "📊 Analyze Your Data";
              Markdown instructions;
              FileUploader "📁 Upload CSV or Excel file" ["csv"; "xlsx"];
              Error "❌ Could not read the file.";
              Exception e ],
            Stopped).
Proof.
  intros Hf Hread. unfold main, load. rewrite Hf, Hread. reflexivity.
Qed.

Lemma parse_failure_halts_witness :
  main (session (broken "sales.csv") ["city"] "city" "sales" "Sum" true)
  = ([ Title "📊 Analyze Your Data";
       Markdown instructions;
       FileUploader "📁 Upload CSV or Excel file" ["csv"; "xlsx"];
       Error "❌ Could not read the file.";
       Exception (ParserError "Error tokenizing data") ],
     Stopped).
Proof.
  apply (parse_failure_halts (session (broken "sales.csv") ["city"] "city" "sales" "Sum" true)
           (broken "sales.csv") (ParserError "Error tokenizing data")).
  - reflexivity.
  - reflexivity.
Defined.

(** *** The visualization subset (lines 119-124) *)

(** C8.  With the toggle on, the subset is the dataset; with the toggle off
    it has the dataset's columns, each cut to its first 1000 entries, hence
    min(1000, row count) rows.  The aggregation of lines 148-152 is applied
    to this subset, and the charts are drawn from its result. *)
Theorem subset_is_all_or_first_1000 (data : DataFrame) (s : Session) :
  subset true data = data /\
  columns (subset false data) = columns data /\
  map (fun c => cells (col_data c)) (subset false data)
  = map (fun c => firstn 1000 (cells (col_data c))) data /\
  len (subset false data) = Nat.min 1000 (len data) /\
  chart_data data s
  = apply_aggregation (agg_option s) (x_axis s) (y_axis s) (subset (show_all_data s) data) /\
  visualization data s
  = and_then (controls data s) (fun _ => and_then (call (chart_data data s)) (charts s)).
Proof.
  split; [reflexivity|]. split; [apply columns_head|].
  split; [|split; [|split; reflexivity]].
  - unfold subset, head. rewrite map_map. apply map_ext. intros c. simpl.
    rewrite cells_head, slice_stop_nonneg by lia. reflexivity.
  - unfold subset. rewrite len_head, slice_stop_nonneg by lia. reflexivity.
Qed.

(** A table of 1001 rows whose last row brings a second X value: with the
    toggle off the group of that value does not exist, because the rows are
    cut before they are grouped. *)
Example truncation_precedes_grouping :
  chart_data long (session (csv "long.csv" long) [] "x" "y" "Sum" false)
  = Ok [ {| col_name := "x"; col_data := numbers [1]%Z |};
         {| col_name := "y"; col_data := numbers [1000]%Z |} ] /\
  apply_aggregation "Sum" "x" "y" (subset true long)
  = Ok [ {| col_name := "x"; col_data := numbers [1; 2]%Z |};
         {| col_name := "y"; col_data := numbers [1000; 1]%Z |} ].
Proof. split; vm_compute; reflexivity. Qed.

(** *** The pie chart of an aggregated frame *)



(** On the example table with Sum in effect the pie chart has two slices of
    frequency 1, whatever the sales. *)
Example city_sales_pie_after_sum :
  exists labels,
    In (Pyplot (Pie [1; 1] labels "Distribution of city (Sum)"))
       (shown (main (session (csv "sales.csv" city_sales) [] "city" "sales" "Sum" true))).
Proof. eexists. in_list. Qed.

End DatascFacts.

(** ** The dataset after loading (lines 32-38) *)

Module LoadFacts.
Import Lists ListFacts Pandas PandasFacts Streamlit Datasc Examples.

(** A column as the script leaves it: numeric, or an object column of text
    only. *)
Definition is_text (o : pyobj) : bool :=
  match o with
  | PStr _ => true
  | _ => false
  end.

Definition normalised (s : Series) : bool :=
  match s with
  | Numeric _ => true
  | Boolean _ => false
  | Object v => forallb is_text v
  end.

Definition as_text (c : Column) : Column :=
  {| col_name := col_name c; col_data := astype_str (col_data c) |}.

Lemma astype_str_normalised (s : Series) : normalised (astype_str s) = true.
Proof.
  destruct s as [v|v|v]; simpl; [reflexivity | |];
    induction v as [|a v IH]; simpl; auto.
Qed.


Lemma astype_str_fixed (s : Series) : normalised s = true -> astype_str s = s.
Proof.
  destruct s as [v|v|v]; simpl; intros H; [reflexivity | discriminate |].
  f_equal. induction v as [|a v IH]; simpl in *; [reflexivity|].
  apply andb_true_iff in H. destruct H as [Ha Hv].
  rewrite IH by exact Hv. destruct a; try discriminate. reflexivity.
Qed.

Lemma as_text_fixed (c : Column) : normalised (col_data c) = true -> as_text c = c.
Proof.
  intros H. destruct c as [n d]. unfold as_text. simpl in *. now rewrite astype_str_fixed.
Qed.

(** Lines 37-38 convert every column that is not numeric: a column keeps its
    data only if [astype_str] leaves it alone. *)
Lemma astype_str_columns_all (table : DataFrame) :
  astype_str_columns (bool_col table) table = map as_text table.
Proof.
  unfold astype_str_columns. apply map_ext_in. intros c Hc.
  destruct (existsb (String.eqb (col_name c)) (bool_col table)) eqn:E; [reflexivity|].
  symmetry. apply as_text_fixed.
  destruct (col_data c) as [v|v|v] eqn:Ed; [reflexivity | |]; exfalso;
    (assert (Hin : existsb (String.eqb (col_name c)) (bool_col table) = true);
     [ apply existsb_exists; exists (col_name c); split; [|apply String.eqb_refl];
       unfold bool_col, columns, select_dtypes; apply in_map, filter_In;
       split; [exact Hc | now rewrite Ed]
     | congruence ]).
Qed.







(** Running lines 37-38 on their own result changes nothing. *)
Theorem text_conversion_is_idempotent (table : DataFrame) :
  astype_str_columns (bool_col (astype_str_columns (bool_col table) table))
                     (astype_str_columns (bool_col table) table)
  = astype_str_columns (bool_col table) table.
Proof.
  rewrite !astype_str_columns_all, map_map. apply map_ext. intros c.
  apply as_text_fixed. apply astype_str_normalised.
Qed.

End LoadFacts.

(** ** The overview (lines 52-63) *)

Module OverviewFacts.
Import Lists ListFacts Pandas PandasFacts Streamlit StreamlitFacts Datasc Examples.

Lemma row_eqb_eq (r1 r2 : list cell) : row_eqb r1 r2 = true <-> r1 = r2.
Proof.
  revert r2. induction r1 as [|a r1 IH]; intros [|b r2]; simpl;
    try (split; [discriminate | congruence]).
  - split; reflexivity.
  - rewrite andb_true_iff, cell_eqb_eq, IH. split.
    + intros [-> ->]. reflexivity.
    + intros E. inversion E. auto.
Qed.

Lemma filter_and {A : Type} (f g : A -> bool) (l : list A) :
  filter f (filter g l) = filter (fun x => g x && f x) l.
Proof.
  induction l as [|a l IH]; simpl; [reflexivity|].
  destruct (g a); simpl; [destruct (f a)|]; now rewrite IH.
Qed.

Section DistinctFilter.
Context {K : Type}.
Variable eqb : K -> K -> bool.
Hypothesis eqb_eq : forall a b, eqb a b = true <-> a = b.

(** Filtering commutes with removing repetitions. *)
Lemma filter_distinct (p : K -> bool) (l : list K) :
  filter p (distinct eqb l) = distinct eqb (filter p l).
Proof.
  induction l as [|k l IH]; simpl; [reflexivity|].
  destruct (p k) eqn:Hk; simpl.
  - f_equal. rewrite <- IH, !filter_and. apply filter_ext. intros x. apply andb_comm.
  - rewrite <- IH, filter_and. apply filter_ext. intros x.
    destruct (eqb k x) eqn:E; simpl; [|reflexivity].
    apply eqb_eq in E. subst x. now rewrite Hk.
Qed.
End DistinctFilter.

Definition unseen (seen : list (list cell)) (r : list cell) : bool :=
  negb (existsb (row_eqb r) seen).

Lemma unseen_cons (r : list cell) (seen : list (list cell)) (x : list cell) :
  unseen (r :: seen) x = unseen seen x && negb (row_eqb r x).
Proof.
  unfold unseen. simpl. rewrite negb_orb, andb_comm. f_equal. f_equal.
  destruct (row_eqb x r) eqn:E.
  - apply row_eqb_eq in E. subst x. symmetry. now apply row_eqb_eq.
  - destruct (row_eqb r x) eqn:E'; [|reflexivity].
    apply row_eqb_eq in E'. subst x.
    assert (row_eqb r r = true) by now apply row_eqb_eq. congruence.
Qed.

(** Every row is either flagged or the first of its kind. *)
Lemma duplicated_from_count (seen rs : list (list cell)) :
  length (filter (fun b => b) (duplicated_from seen rs))
  + length (distinct row_eqb (filter (unseen seen) rs))
  = length rs.
Proof.
  revert seen. induction rs as [|r rs IH]; intros seen; [reflexivity|].
  specialize (IH (r :: seen)).
  rewrite (filter_ext _ _ (unseen_cons r seen)), <- filter_and in IH.
  rewrite <- (filter_distinct _ row_eqb_eq) in IH.
  cbn [duplicated_from filter length].
  assert (Hu : unseen seen r = negb (existsb (row_eqb r) seen)) by reflexivity.
  rewrite Hu. destruct (existsb (row_eqb r) seen) eqn:E; cbn [negb filter length distinct].
  - rewrite <- IH. rewrite Nat.add_succ_l. f_equal. f_equal. f_equal.
    symmetry. apply filter_all.
    intros x Hx. apply (In_distinct _ row_eqb_eq), filter_In in Hx. destruct Hx as [_ Hx].
    destruct (row_eqb r x) eqn:E'; [|reflexivity].
    apply row_eqb_eq in E'. subst x. unfold unseen in Hx. now rewrite E in Hx.
  - rewrite <- IH. lia.
Qed.

Lemma duplicated_from_flag (seen rs : list (list cell)) (i : nat) :
  nth_error (duplicated_from seen rs) i = Some true <->
  exists r, nth_error rs i = Some r /\ (In r seen \/ In r (firstn i rs)).
Proof.
  revert seen i. induction rs as [|r rs IH]; intros seen [|i]; simpl.
  - split; [discriminate | intros [x [H _]]; discriminate].
  - split; [discriminate | intros [x [H _]]; discriminate].
  - split.
    + intros H. inversion H as [E]. apply existsb_exists in E.
      destruct E as [x [Hx E]]. apply row_eqb_eq in E. subst x.
      exists r. split; [reflexivity | now left].
    + intros [x [E [Hx | []]]]. inversion E. subst x. f_equal.
      apply existsb_exists. exists r. split; [exact Hx | now apply row_eqb_eq].
  - rewrite IH. split; intros [x [E H]]; exists x; (split; [exact E|]); simpl in *; tauto.
Qed.

Lemma rows_length (df : DataFrame) : length (rows df) = len df.
Proof. unfold rows. now rewrite length_map, length_seq. Qed.

Lemma rows_nth (df : DataFrame) (i : nat) :
  i < len df -> nth_error (rows df) i = Some (row df i).
Proof.
  intros H. unfold rows. rewrite nth_error_map, nth_error_seq.
  apply Nat.ltb_lt in H. now rewrite H.
Qed.

Lemma firstn_seq (i start n : nat) : firstn i (seq start n) = seq start (Nat.min i n).
Proof.
  revert start n. induction i as [|i IH]; intros start [|n]; simpl; try reflexivity.
  now rewrite IH.
Qed.

Lemma rows_earlier (df : DataFrame) (i : nat) (r : list cell) :
  i <= len df -> (In r (firstn i (rows df)) <-> exists j, j < i /\ row df j = r).
Proof.
  intros H. unfold rows. rewrite firstn_map, firstn_seq, Nat.min_l by exact H.
  rewrite in_map_iff. split.
  - intros [j [E Hj]]. apply in_seq in Hj. exists j. split; [lia | exact E].
  - intros [j [Hj E]]. exists j. split; [exact E | apply in_seq; lia].
Qed.

(** The number shown as Duplicates counts the rows equal to a row above
    them: row [i] is flagged exactly when some earlier row has the same
    entries in every column, and the flagged rows and the distinct rows add
    up to the rows of the dataset. *)
Theorem duplicates_are_repeated_rows (data : DataFrame) :
  In (Metric "Duplicates" (duplicated_sum data)) (shown (overview data)) /\
  In (Metric "Rows" (len data)) (shown (overview data)) /\
  length (duplicated data) = len data /\
  (forall i, nth_error (duplicated data) i = Some true <->
             i < len data /\ exists j, j < i /\ row data j = row data i) /\
  duplicated_sum data + length (distinct row_eqb (rows data)) = len data.
Proof.
  split; [unfold overview; simpl; tauto|].
  split; [unfold overview; simpl; tauto|].
  assert (Hlen : length (duplicated data) = len data).
  { unfold duplicated. rewrite <- rows_length.
    generalize (@nil (list cell)). induction (rows data) as [|r rs IH]; intros seen; simpl.
    - reflexivity.
    - now rewrite IH. }
  split; [exact Hlen|]. split.
  - intros i. unfold duplicated. rewrite duplicated_from_flag. split.
    + intros [r [Hr [[] | Hin]]].
      assert (Hi : i < len data).
      { rewrite <- rows_length. apply nth_error_Some. congruence. }
      split; [exact Hi|]. rewrite rows_nth in Hr by exact Hi. inversion Hr. subst r.
      apply rows_earlier in Hin; [exact Hin | lia].
    + intros [Hi Hj]. exists (row data i). split; [now apply rows_nth|].
      right. apply rows_earlier; [lia | exact Hj].
  - unfold duplicated_sum, duplicated. rewrite <- (rows_length data).
    rewrite <- (duplicated_from_count [] (rows data)). f_equal. f_equal. f_equal.
    symmetry. apply filter_all. reflexivity.
Qed.

End OverviewFacts.

(** ** Rows from the top (lines 50, 99-104, 121-124) *)

Module HeadFacts.
Import Lists ListFacts Pandas PandasFacts Streamlit StreamlitFacts Datasc Examples.

Lemma series_head_all (n : Z) (s : Series) :
  (0 <= n)%Z -> series_len s <= Z.to_nat n -> series_head n s = s.
Proof.
  intros Hn Hlen. destruct s as [v|v|v]; unfold series_len in Hlen; simpl in *;
    rewrite length_map in Hlen; rewrite slice_stop_nonneg by exact Hn;
    now rewrite firstn_all2.
Qed.


Lemma head_all (n : Z) (df : DataFrame) :
  wf df -> (0 <= n)%Z -> len df <= Z.to_nat n -> head n df = df.
Proof.
  intros [_ Hlen] Hn Hle. unfold head. rewrite <- (map_id df) at 2.
  apply map_ext_in. intros c Hc. rewrite Forall_forall in Hlen.
  rewrite series_head_all; [now destruct c | exact Hn | now rewrite (Hlen c Hc)].
Qed.

(** With the toggle off the charts see the whole dataset exactly when it has
    at most 1000 rows; a longer dataset is cut to 1000 rows. *)
Theorem toggle_matters_above_1000_rows (data : DataFrame) :
  wf data ->
  (subset false data = subset true data <-> len data <= 1000) /\
  (1000 < len data -> len (subset false data) = 1000).
Proof.
  intros Hwf.
  assert (Hlen : len (subset false data) = Nat.min 1000 (len data))
    by (unfold subset; rewrite len_head, slice_stop_nonneg by lia; reflexivity).
  split; [split|].
  - intros E. rewrite E in Hlen. unfold subset in Hlen. lia.
  - intros Hle. unfold subset. apply head_all; [exact Hwf | lia | exact Hle].
  - intros Hgt. rewrite Hlen. lia.
Qed.

Lemma toggle_matters_above_1000_rows_witness :
  (subset false long = subset true long <-> len long <= 1000) /\
  (1000 < len long -> len (subset false long) = 1000).
Proof.
  apply (toggle_matters_above_1000_rows long). split.
  - repeat constructor; simpl; intuition discriminate.
  - repeat constructor.
Defined.

(** With no column selected the selection area shows a notice and the same
    frame as the preview, the first min(5, row count) rows of all columns in
    dataset order; no slider is built and the step cannot fail. *)
Theorem no_selection_shows_the_preview (data : DataFrame) (s : Session) :
  selected_col s = [] ->
  column_selection data s
  = ([ Markdown "---";
       Text "### ✂️ Select Desired Column For Further Analysis";
       Multiselect "Choose columns to display:" (columns data);
       Notice "No column selected. Showing all columns instead.";
       Dataframe (head 5 data) ],
     Returns tt) /\
  In (Dataframe (head 5 data)) (shown (preview data)) /\
  columns (head 5 data) = columns data /\
  len (head 5 data) = Nat.min 5 (len data) /\
  (wf data -> len data <= 5 -> head 5 data = data).
Proof.
  intros Hsel. split; [|split; [|split; [|split]]].
  - unfold column_selection. rewrite Hsel. reflexivity.
  - unfold preview. simpl. tauto.
  - apply columns_head.
  - rewrite len_head, slice_stop_nonneg by lia. reflexivity.
  - intros Hwf Hle. apply head_all; [exact Hwf | lia | exact Hle].
Qed.

Lemma no_selection_shows_the_preview_witness :
  column_selection city_sales (session (csv "sales.csv" city_sales) [] "city" "sales" "Raw" false)
  = ([ Markdown "---";
       Text "### ✂️ Select Desired Column For Further Analysis";
       Multiselect "Choose columns to display:" (columns city_sales);
       Notice "No column selected. Showing all columns instead.";
       Dataframe (head 5 city_sales) ],
     Returns tt) /\
  In (Dataframe (head 5 city_sales)) (shown (preview city_sales)) /\
  columns (head 5 city_sales) = columns city_sales /\
  len (head 5 city_sales) = Nat.min 5 (len city_sales) /\
  (wf city_sales -> len city_sales <= 5 -> head 5 city_sales = city_sales).
Proof.
  apply (no_selection_shows_the_preview city_sales
           (session (csv "sales.csv" city_sales) [] "city" "sales" "Raw" false)).
  reflexivity.
Defined.

End HeadFacts.

(** ** The frame behind the charts (lines 119-202) *)

Module ChartFacts.
Import Lists ListFacts Pandas PandasFacts Streamlit StreamlitFacts Datasc Examples.
Import DatascFacts HeadFacts.



(** What a successful [groupby(x)[y].sum()/mean().reset_index()] went
    through. *)
Lemma groupby_agg_Ok (h : how) (x y : string) (df out : DataFrame) :
  groupby_agg h x y df = Ok out ->
  exists xs ys vals,
    getitem x df = Ok xs /\ getitem y df = Ok ys /\
    aggregate h (cells (group_keys xs)) xs ys = Ok vals /\
    x <> y /\
    out = [ {| col_name := x; col_data := group_keys xs |};
            {| col_name := y; col_data := vals |} ].
Proof.
  unfold groupby_agg. intros H.
  destruct (getitem x df) as [xs|e]; simpl in H; [|discriminate].
  destruct (getitem y df) as [ys|e]; simpl in H; [|discriminate].
  destruct (aggregate h (cells (group_keys xs)) xs ys) as [vals|e] eqn:E;
    simpl in H; [|discriminate].
  destruct (String.eqb x y) eqn:Exy; [discriminate|].
  inversion H. exists xs, ys, vals. repeat split; try assumption.
  now apply String.eqb_neq.
Qed.

(** What the exceptions of the aggregation are. *)
Lemma text_sum_Raise (g : list pyobj) (r : exn) :
  text_sum g = Raise r -> exists detail, r = TypeError detail.
Proof.
  induction g as [|o g IH]; simpl; intros H; [discriminate|].
  destruct o as [t| |]; try (inversion H; eexists; reflexivity).
  destruct (text_sum g) as [t'|r']; simpl in H; [discriminate|].
  inversion H. subst r'. now apply IH.
Qed.

Lemma traverse_Raise {A B : Type} (P : exn -> Prop) (f : A -> result B) (l : list A) (r : exn) :
  (forall a r', f a = Raise r' -> P r') -> traverse f l = Raise r -> P r.
Proof.
  intros Hf. induction l as [|a l IH]; simpl; intros H; [discriminate|].
  destruct (f a) as [b|r'] eqn:E; simpl in H.
  - destruct (traverse f l) as [bs|r']; simpl in H; [discriminate|].
    inversion H. subst r'. now apply IH.
  - inversion H. subst r'. now apply (Hf a).
Qed.

Lemma aggregate_Raise (h : how) (keys : list cell) (x y : Series) (r : exn) :
  aggregate h keys x y = Raise r -> exists detail, r = TypeError detail.
Proof.
  unfold aggregate. destruct y as [v|v|v]; try discriminate.
  destruct h; intros H.
  - destruct (traverse _ keys) as [l|r'] eqn:E; simpl in H; [discriminate|].
    inversion H. subst r'.
    apply (traverse_Raise (fun r => exists d, r = TypeError d)) in E; [exact E|].
    intros k r' Hr'. now apply text_sum_Raise in Hr'.
  - inversion H. eexists. reflexivity.
Qed.

Lemma getitem_Raise (label : string) (df : DataFrame) (e : exn) :
  getitem label df = Raise e -> e = KeyError label /\ ~ In label (columns df).
Proof.
  unfold getitem. intros H. split.
  - destruct (lookup label df); [discriminate | now inversion H].
  - intros Hin. apply lookup_In in Hin. destruct Hin as [c Hc].
    rewrite Hc in H. discriminate.
Qed.

Lemma groupby_agg_Raise (h : how) (x y : string) (df : DataFrame) (e : exn) :
  x <> y -> groupby_agg h x y df = Raise e ->
  e = KeyError x /\ ~ In x (columns df) \/
  e = KeyError y /\ ~ In y (columns df) \/
  exists detail, e = TypeError detail.
Proof.
  unfold groupby_agg. intros Hxy H.
  destruct (getitem x df) as [xs|e'] eqn:Ex; simpl in H;
    [|inversion H; subst e'; left; now apply getitem_Raise].
  destruct (getitem y df) as [ys|e'] eqn:Ey; simpl in H;
    [|inversion H; subst e'; right; left; now apply getitem_Raise].
  right. right.
  destruct (aggregate h (cells (group_keys xs)) xs ys) as [vals|e'] eqn:E; simpl in H.
  - apply String.eqb_neq in Hxy. rewrite Hxy in H. discriminate.
  - inversion H. subst e'. now apply aggregate_Raise in E.
Qed.

Lemma agg_option_cases (s : Session) :
  agg_option s = "Raw" \/
  x_axis s <> y_axis s /\ (agg_option s = "Sum" \/ agg_option s = "Average").
Proof.
  pose proof (radio_offered (agg_options (x_axis s) (y_axis s)) (requested_agg s)) as H.
  fold (agg_option s) in H. unfold agg_options in H.
  destruct (String.eqb (x_axis s) (y_axis s)) eqn:E.
  - destruct H as [H | []]; [discriminate | now left].
  - apply String.eqb_neq in E.
    destruct H as [H | [H | [H | []]]]; [discriminate | now left | right | right]; auto.
Qed.

Lemma columns_subset (b : bool) (data : DataFrame) : columns (subset b data) = columns data.
Proof. destruct b; [reflexivity | apply columns_head]. Qed.

(** The guard of lines 135-139 does its job: the chart frame is either the
    subset or a grouping over two different columns, so the refusal of
    [reset_index] to insert a column twice never occurs; the only ways the
    aggregation step fails are an axis that is no column and a reduction the
    Y column does not support. *)
Theorem aggregation_fails_only_on_axis_or_type (data : DataFrame) (s : Session) (e : exn) :
  chart_data data s = Raise e ->
  x_axis s <> y_axis s /\
  (agg_option s = "Sum" \/ agg_option s = "Average") /\
  (e = KeyError (x_axis s) /\ ~ In (x_axis s) (columns data) \/
   e = KeyError (y_axis s) /\ ~ In (y_axis s) (columns data) \/
   exists detail, e = TypeError detail).
Proof.
  unfold chart_data, apply_aggregation. intros H.
  destruct (agg_option_cases s) as [Hraw | [Hxy Hopt]].
  - rewrite Hraw in H. discriminate.
  - split; [exact Hxy|]. split; [exact Hopt|].
    rewrite <- (columns_subset (show_all_data s) data).
    destruct Hopt as [Hopt | Hopt]; rewrite Hopt in H; simpl in H;
      now apply groupby_agg_Raise in H.
Qed.

Lemma aggregation_fails_only_on_axis_or_type_witness :
  x_axis average_of_names <> y_axis average_of_names /\
  (agg_option average_of_names = "Sum" \/ agg_option average_of_names = "Average") /\
  (TypeError "agg function failed [how->mean,dtype->object]"
   = KeyError (x_axis average_of_names) /\
   ~ In (x_axis average_of_names) (columns members) \/
   TypeError "agg function failed [how->mean,dtype->object]"
   = KeyError (y_axis average_of_names) /\
   ~ In (y_axis average_of_names) (columns members) \/
   exists detail, TypeError "agg function failed [how->mean,dtype->object]" = TypeError detail).
Proof.
  apply (aggregation_fails_only_on_axis_or_type members average_of_names
           (TypeError "agg function failed [how->mean,dtype->object]")).
  reflexivity.
Defined.





Lemma controls_returns (data : DataFrame) (s : Session) : snd (controls data s) = Returns tt.
Proof. unfold controls. destruct (String.eqb (x_axis s) (y_axis s)); reflexivity. Qed.

Lemma controls_show_no_chart (data : DataFrame) (s : Session) (fig : figure) :
  ~ In (Pyplot fig) (shown (controls data s)).
Proof.
  unfold controls. destruct (String.eqb (x_axis s) (y_axis s)); simpl;
    intros H; repeat (destruct H as [H | H]; [discriminate|]); exact H.
Qed.

Lemma visualization_aborts (data : DataFrame) (s : Session) (e : exn) :
  chart_data data s = Raise e ->
  visualization data s = (shown (controls data s), Aborted e).
Proof.
  intros H. unfold visualization. rewrite H.
  pose proof (controls_returns data s) as Hr.
  destruct (controls data s) as [out r]. simpl in *. subst r.
  simpl. now rewrite app_nil_r.
Qed.

(** Average over a text Y column: with two different axes, Average
    requested and at least one row whose X entry is not missing, the mean of
    the object column raises a [TypeError] that nothing catches; the cycle
    ends there, after the controls, and no chart is shown whatever button is
    pressed. *)
Theorem average_of_text_aborts
    (data : DataFrame) (s : Session) (xs : Series) (v : list pyobj) :
  x_axis s <> y_axis s ->
  requested_agg s = "Average" ->
  getitem (x_axis s) (subset (show_all_data s) data) = Ok xs ->
  (exists k, In k (cells xs) /\ isnull k = false) ->
  getitem (y_axis s) (subset (show_all_data s) data) = Ok (Object v) ->
  exists detail,
    chart_data data s = Raise (TypeError detail) /\
    visualization data s = (shown (controls data s), Aborted (TypeError detail)) /\
    forall fig, ~ In (Pyplot fig) (shown (visualization data s)).
Proof.
  intros Hxy Hreq Hx _ Hy.
  assert (Hopt : agg_option s = "Average").
  { unfold agg_option, agg_options. apply String.eqb_neq in Hxy. rewrite Hxy, Hreq.
    reflexivity. }
  assert (Hraise : chart_data data s
                   = Raise (TypeError "agg function failed [how->mean,dtype->object]")).
  { unfold chart_data, apply_aggregation. rewrite Hopt. simpl.
    unfold groupby_agg. now rewrite Hx, Hy. }
  eexists. split; [exact Hraise|].
  rewrite (visualization_aborts _ _ _ Hraise). split; [reflexivity|].
  intros fig. apply controls_show_no_chart.
Qed.

Lemma average_of_text_aborts_witness :
  exists detail,
    chart_data (map LoadFacts.as_text members) average_of_names = Raise (TypeError detail) /\
    visualization (map LoadFacts.as_text members) average_of_names
    = (shown (controls (map LoadFacts.as_text members) average_of_names),
       Aborted (TypeError detail)) /\
    forall fig,
      ~ In (Pyplot fig) (shown (visualization (map LoadFacts.as_text members) average_of_names)).
Proof.
  apply (average_of_text_aborts (map LoadFacts.as_text members) average_of_names
           (numbers [7; 9; 7]%Z) [PStr "Ann"; PStr "Bob"; PStr "Ann"]).
  - discriminate.
  - reflexivity.
  - reflexivity.
  - exists (CNum (Some (num 7))). split; [now left | reflexivity].
  - reflexivity.
Defined.

End ChartFacts.

(** ** Counting and adding up by group (lines 147-152, 204-213) *)

Module GroupFacts.
Import Lists ListFacts Pandas PandasFacts Streamlit StreamlitFacts Datasc Examples.
Import DatascFacts.



Lemma list_sum_firstn (n : nat) (l : list nat) : list_sum (firstn n l) <= list_sum l.
Proof.
  rewrite <- (firstn_skipn n l) at 2. rewrite list_sum_app. lia.
Qed.



Section Counts.
Context {K : Type}.
Variable eqb : K -> K -> bool.
Hypothesis eqb_eq : forall a b, eqb a b = true <-> a = b.




End Counts.

(** *** The slices of the pie chart *)





(** *** The sums of the groups *)











End GroupFacts.

(** ** The order of the aggregated rows (lines 147-152) *)

Module OrderFacts.
Import Lists ListFacts Pandas PandasFacts Streamlit StreamlitFacts Datasc Examples.
Import DatascFacts ChartFacts.

(** Two keys in the order the aggregated frame lists them: numbers by
    value, [False] before [True], the content of object cells by
    [pyobj_leb], which on text is the order by code point.  A missing number
    and keys of different dtypes are in no order. *)
Definition ascending (a b : cell) : Prop :=
  match a, b with
  | CNum (Some p), CNum (Some q) => (p <= q)%Q
  | CBool x, CBool y => bool_leb x y = true
  | CObj x, CObj y => pyobj_leb x y = true
  | _, _ => False
  end.

Lemma ascii_compare_trans (a b c : ascii) :
  Ascii.compare a b <> Gt -> Ascii.compare b c <> Gt -> Ascii.compare a c <> Gt.
Proof.
  unfold Ascii.compare. rewrite !N.compare_gt_iff. lia.
Qed.

Lemma string_leb_trans (s1 s2 s3 : string) :
  String.leb s1 s2 = true -> String.leb s2 s3 = true -> String.leb s1 s3 = true.
Proof.
  unfold String.leb. revert s2 s3.
  induction s1 as [|a s1 IH]; intros [|b s2] [|c s3]; simpl; try congruence.
  unfold Ascii.compare.
  destruct (N.compare_spec (N_of_ascii a) (N_of_ascii b)) as [Eab | Lab | Gab];
    destruct (N.compare_spec (N_of_ascii b) (N_of_ascii c)) as [Ebc | Lbc | Gbc];
    try congruence.
  - rewrite Eab, Ebc, N.compare_refl. apply IH.
  - intros _ _. rewrite Eab. now apply N.compare_lt_iff in Lbc as ->.
  - intros _ _. rewrite <- Ebc. now apply N.compare_lt_iff in Lab as ->.
  - intros _ _. assert (H : (N_of_ascii a < N_of_ascii c)%N) by lia.
    now apply N.compare_lt_iff in H as ->.
Qed.

Lemma string_leb_false (s t : string) : String.leb s t = false -> String.leb t s = true.
Proof.
  intros H. destruct (String.leb_total s t) as [H' | H']; [congruence | exact H'].
Qed.

Lemma num_leb_false (a b : number) : num_leb a b = false -> num_leb b a = true.
Proof.
  unfold num_leb. intros H. apply Qle_bool_iff.
  destruct (Qlt_le_dec b a) as [Hlt | Hle].
  - now apply Qlt_le_weak.
  - apply Qle_bool_iff in Hle. congruence.
Qed.

Lemma num_leb_trans (a b c : number) :
  num_leb a b = true -> num_leb b c = true -> num_leb a c = true.
Proof.
  unfold num_leb. rewrite !Qle_bool_iff. apply Qle_trans.
Qed.

Lemma pyobj_leb_false (a b : pyobj) : pyobj_leb a b = false -> pyobj_leb b a = true.
Proof.
  destruct a as [s|x|], b as [t|y|]; simpl; try congruence.
  - apply string_leb_false.
  - destruct x, y; simpl; congruence.
Qed.

Lemma pyobj_leb_trans (a b c : pyobj) :
  pyobj_leb a b = true -> pyobj_leb b c = true -> pyobj_leb a c = true.
Proof.
  destruct a as [s|x|], b as [t|y|], c as [u|z|]; simpl; try congruence.
  - apply string_leb_trans.
  - destruct x, y, z; simpl; congruence.
Qed.

Lemma StronglySorted_map {A B : Type} (R : B -> B -> Prop) (f : A -> B) (l : list A) :
  StronglySorted (fun a b => R (f a) (f b)) l -> StronglySorted R (map f l).
Proof.
  induction 1 as [|a l Hl IH Ha]; simpl; constructor.
  - exact IH.
  - apply Forall_forall. intros b Hb. apply in_map_iff in Hb.
    destruct Hb as [x [<- Hx]]. rewrite Forall_forall in Ha. now apply Ha.
Qed.

Lemma group_keys_ascend (s : Series) : StronglySorted ascending (cells (group_keys s)).
Proof.
  destruct s as [v|v|v]; simpl.
  - rewrite map_map. apply StronglySorted_map.
    eapply StronglySorted_impl; [|apply sort_sorted].
    + intros a b H. simpl. now apply Qle_bool_iff.
    + apply num_leb_false.
    + apply num_leb_trans.
  - apply StronglySorted_map.
    eapply StronglySorted_impl; [|apply sort_sorted].
    + intros a b H. exact H.
    + intros a b. destruct a, b; simpl; congruence.
    + intros a b c. destruct a, b, c; simpl; congruence.
  - apply StronglySorted_map.
    eapply StronglySorted_impl; [|apply sort_sorted].
    + intros a b H. exact H.
    + apply pyobj_leb_false.
    + apply pyobj_leb_trans.
Qed.

(** The aggregated frame lists its rows in ascending order of the X value,
    without repetition: numbers by value and text by code point, whatever the
    order of the rows in the subset. *)
Theorem aggregated_rows_ascend
    (h : how) (x_axis y_axis : string) (data_viz out : DataFrame) :
  apply_aggregation (option_of h) x_axis y_axis data_viz = Ok out ->
  exists keys,
    getitem x_axis out = Ok keys /\
    StronglySorted ascending (cells keys) /\
    NoDup (cells keys) /\
    (forall s t, ascending (CObj (PStr s)) (CObj (PStr t)) <-> String.leb s t = true).
Proof.
  rewrite apply_aggregation_option. intros H. apply groupby_agg_Ok in H.
  destruct H as [xs [ys [vals [_ [_ [_ [_ ->]]]]]]].
  exists (group_keys xs). split; [|split; [|split]].
  - unfold getitem, lookup. simpl. now rewrite String.eqb_refl.
  - apply group_keys_ascend.
  - apply group_keys_NoDup.
  - intros s t. reflexivity.
Qed.

Lemma aggregated_rows_ascend_witness :
  exists keys,
    getitem "city" city_sums = Ok keys /\
    StronglySorted ascending (cells keys) /\
    NoDup (cells keys) /\
    (forall s t, ascending (CObj (PStr s)) (CObj (PStr t)) <-> String.leb s t = true).
Proof.
  apply (aggregated_rows_ascend Sum "city" "sales" city_sales city_sums).
  reflexivity.
Defined.

(** Rows in descending order of city come out in ascending order. *)
Example sums_are_listed_by_city :
  apply_aggregation "Sum" "city" "sales"
    [ {| col_name := "city"; col_data := text ["Z"; "M"; "A"; "M"] |};
      {| col_name := "sales"; col_data := numbers [1; 2; 3; 4]%Z |} ]
  = Ok [ {| col_name := "city"; col_data := text ["A"; "M"; "Z"] |};
         {| col_name := "sales"; col_data := numbers [3; 6; 1]%Z |} ].
Proof. reflexivity. Qed.

End OrderFacts.

(** ** The file name (lines 30-35) *)

Module NameFacts.
Import Pandas Streamlit Datasc Examples.

Lemma length_append (p s : string) :
  String.length (p ++ s)%string = String.length p + String.length s.
Proof. induction p as [|c p IH]; simpl; [reflexivity | now rewrite IH]. Qed.

Lemma substring_whole (s : string) : substring 0 (String.length s) s = s.
Proof. induction s as [|c s IH]; simpl; [reflexivity | now rewrite IH]. Qed.

Lemma substring_after (p s : string) (m : nat) :
  substring (String.length p) m (p ++ s)%string = substring 0 m s.
Proof. induction p as [|c p IH]; simpl; [reflexivity | exact IH]. Qed.

Lemma substring_split (k : nat) (s : string) :
  k <= String.length s ->
  s = (substring 0 k s ++ substring k (String.length s - k) s)%string.
Proof.
  revert s. induction k as [|k IH]; intros s H.
  - rewrite Nat.sub_0_r, substring_whole. now destruct s.
  - destruct s as [|c s]; simpl in *; [lia|].
    f_equal. apply IH. lia.
Qed.

(** [endswith] is Python's [str.endswith]: the name is some text followed
    by the suffix, letter for letter, so capitals do not match. *)
Theorem endswith_is_a_suffix_test (s suffix : string) :
  endswith s suffix = true <-> exists p, s = (p ++ suffix)%string.
Proof.
  unfold endswith. rewrite andb_true_iff, Nat.leb_le, String.eqb_eq. split.
  - intros [Hle Hsub]. exists (substring 0 (String.length s - String.length suffix) s).
    pose proof (substring_split (String.length s - String.length suffix) s) as H.
    replace (String.length s - (String.length s - String.length suffix))
      with (String.length suffix) in H by lia.
    rewrite Hsub in H. apply H. lia.
  - intros [p ->]. rewrite length_append. split; [lia|].
    replace (String.length p + String.length suffix - String.length suffix)
      with (String.length p) by lia.
    rewrite substring_after. apply substring_whole.
Qed.

(** A file whose name ends in none of [.csv], [.xlsx] and [.xls] is refused
    unread: [data] is never bound, line 37 raises [NameError], and the cycle
    shows the error and stops, even when the file holds a table either
    reader would accept. *)
Theorem unknown_extension_is_refused (s : Session) (f : UploadedFile) :
  uploaded_file s = Some f ->
  endswith (name f) ".csv" = false ->
  endswith (name f) ".xlsx" = false ->
  endswith (name f) ".xls" = false ->
  read f = Raise (NameError "data") /\
  main s = ([ Title "📊 Analyze Your Data";
              Markdown instructions;
              FileUploader "📁 Upload CSV or Excel file" ["csv"; "xlsx"];
              Error "❌ Could not read the file.";
              Exception (NameError "data") ],
            Stopped).
Proof.
  intros Hf Hcsv Hxlsx Hxls.
  assert (Hread : read f = Raise (NameError "data"))
    by (unfold read; now rewrite Hcsv, Hxlsx, Hxls).
  split; [exact Hread|].
  unfold main, load. rewrite Hf, Hread. reflexivity.
Qed.

Lemma unknown_extension_is_refused_witness :
  read capitals = Raise (NameError "data") /\
  main (session capitals [] "city" "sales" "Raw" false)
  = ([ Title "📊 Analyze Your Data";
       Markdown instructions;
       FileUploader "📁 Upload CSV or Excel file" ["csv"; "xlsx"];
       Error "❌ Could not read the file.";
       Exception (NameError "data") ],
     Stopped).
Proof.
  apply (unknown_extension_is_refused (session capitals [] "city" "sales" "Raw" false) capitals);
    reflexivity.
Defined.

End NameFacts.

(** ** Whole cycles *)

Module CycleFacts.
Import Lists ListFacts Pandas PandasFacts Streamlit StreamlitFacts Datasc Examples.
Import DatascFacts LoadFacts HeadFacts ChartFacts.

Lemma shown_and_then {A B : Type} (m : script A) (k : A -> script B) :
  shown (and_then m k)
  = shown m ++ match snd m with
               | Returns a => shown (k a)
               | _ => []
               end.
Proof.
  destruct m as [out [a| |e]]; simpl; [|now rewrite app_nil_r..].
  now destruct (k a).
Qed.


(** *** The footer (lines 215-222) *)

Definition is_footer (e : element) : bool :=
  match e with
  | Markdown body => String.eqb body footer
  | _ => false
  end.

Lemma no_footer_and_then {A B : Type} (m : script A) (k : A -> script B) :
  existsb is_footer (shown m) = false ->
  (forall a, existsb is_footer (shown (k a)) = false) ->
  existsb is_footer (shown (and_then m k)) = false.
Proof.
  intros Hm Hk. rewrite shown_and_then, existsb_app, Hm. simpl.
  destruct (snd m); [apply Hk | reflexivity | reflexivity].
Qed.

Lemma no_footer_in_charts (s : Session) (data_viz : DataFrame) :
  existsb is_footer (shown (charts s data_viz)) = false.
Proof.
  unfold charts, xy_chart, pie_chart, x_axis_counts.
  destruct (getitem (x_axis s) data_viz), (getitem (y_axis s) data_viz),
    (line_btn s), (scatter_btn s), (bar_btn s), (pie_btn s); reflexivity.
Qed.

Lemma no_footer_in_explore (data : DataFrame) (s : Session) :
  existsb is_footer (shown (explore data s)) = false.
Proof.
  unfold explore.
  apply no_footer_and_then; [reflexivity | intros _].
  apply no_footer_and_then; [reflexivity | intros _].
  apply no_footer_and_then; [|intros _].
  { unfold summaries.
    destruct (negb (empty (select_dtypes is_number data))),
      (negb (empty (select_dtypes is_bool_or_object data))); reflexivity. }
  apply no_footer_and_then; [|intros _].
  { unfold column_selection. destruct (selected_col s) as [|l ls]; [reflexivity|].
    destruct (selection (l :: ls) (num_rows s) data); reflexivity. }
  unfold visualization. apply no_footer_and_then.
  - unfold controls. destruct (String.eqb (x_axis s) (y_axis s)); reflexivity.
  - intros _. apply no_footer_and_then.
    + destruct (chart_data data s); reflexivity.
    + intros dv. apply no_footer_in_charts.
Qed.

(** The footer is shown exactly when no file is uploaded, and then the page
    is the title, the instructions, the uploader, a rule and the footer. *)
Theorem footer_marks_the_empty_page (s : Session) :
  (In (Markdown footer) (shown (main s)) <-> uploaded_file s = None) /\
  (uploaded_file s = None ->
   main s = ([ Title "📊 Analyze Your Data";
               Markdown instructions;
               FileUploader "📁 Upload CSV or Excel file" ["csv"; "xlsx"];
               Markdown "---";
               Markdown footer ],
             Returns tt)).
Proof.
  assert (Hnone : uploaded_file s = None ->
                  main s = ([ Title "📊 Analyze Your Data";
                              Markdown instructions;
                              FileUploader "📁 Upload CSV or Excel file" ["csv"; "xlsx"];
                              Markdown "---";
                              Markdown footer ],
                            Returns tt))
    by (intros H; unfold main; rewrite H; reflexivity).
  split; [|exact Hnone]. split.
  - intros Hin. destruct (uploaded_file s) as [f|] eqn:Hf; [exfalso|reflexivity].
    assert (Hex : existsb is_footer (shown (main s)) = true).
    { apply existsb_exists. exists (Markdown footer). split; [exact Hin|].
      apply String.eqb_refl. }
    assert (Hno : existsb is_footer (shown (main s)) = false).
    { unfold main. rewrite Hf.
      apply no_footer_and_then; [reflexivity | intros _].
      apply no_footer_and_then; [reflexivity | intros _].
      apply no_footer_and_then; [reflexivity | intros _].
      apply no_footer_and_then; [|intros _; reflexivity].
      apply no_footer_and_then.
      - unfold load. destruct (read f); reflexivity.
      - intros data. apply no_footer_in_explore. }
    congruence.
  - intros H. rewrite (Hnone H). simpl. tauto.
Qed.

(** *** The summary tabs (lines 66-92) *)

Lemma empty_select (p : Series -> bool) (data : DataFrame) :
  wf data ->
  (empty (select_dtypes p data) = true <->
   (forall c, In c data -> p (col_data c) = false) \/ len data = 0).
Proof.
  intros [_ Hlen]. rewrite Forall_forall in Hlen.
  unfold empty, select_dtypes.
  destruct (filter (fun c => p (col_data c)) data) as [|c rest] eqn:E; simpl.
  - split; [|reflexivity]. intros _. left. intros c Hc.
    destruct (p (col_data c)) eqn:Ep; [|reflexivity].
    assert (Hin : In c (filter (fun c => p (col_data c)) data))
      by (apply filter_In; now split).
    rewrite E in Hin. contradiction.
  - assert (Hc : In c data /\ p (col_data c) = true)
      by (apply (proj1 (filter_In (fun c => p (col_data c)) c data)); rewrite E; now left).
    destruct Hc as [Hc Hp]. rewrite (Hlen c Hc), Nat.eqb_eq. split.
    + intros H. now right.
    + intros [H | H]; [|exact H]. rewrite (H c Hc) in Hp. discriminate.
Qed.

(** Each summary tab shows its warning exactly when the dataset has no
    column of its kind or has no row at all, and its statistics otherwise: a
    file with a header line only gets both warnings although it has
    columns. *)
Theorem summary_tabs_warn_on_nothing_to_describe (data : DataFrame) :
  wf data ->
  (In (Warning "No numerical data available to summarize.") (shown (summaries data)) <->
   (forall c, In c data -> is_number (col_data c) = false) \/ len data = 0) /\
  (In (Warning "No non-numerical data available to summarize.") (shown (summaries data)) <->
   (forall c, In c data -> is_bool_or_object (col_data c) = false) \/ len data = 0) /\
  (In (Statistics (select_dtypes is_number data)) (shown (summaries data)) \/
   In (Warning "No numerical data available to summarize.") (shown (summaries data))) /\
  snd (summaries data) = Returns tt.
Proof.
  intros Hwf.
  rewrite <- (empty_select is_number data Hwf), <- (empty_select is_bool_or_object data Hwf).
  unfold summaries.
  destruct (empty (select_dtypes is_number data)),
    (empty (select_dtypes is_bool_or_object data)); simpl;
    repeat split; try reflexivity; try tauto;
    try (intros H; repeat (destruct H as [H | H]; [discriminate|]); contradiction);
    try discriminate.
Qed.

Lemma summary_tabs_warn_on_nothing_to_describe_witness :
  (In (Warning "No numerical data available to summarize.") (shown (summaries header_only)) <->
   (forall c, In c header_only -> is_number (col_data c) = false) \/ len header_only = 0) /\
  (In (Warning "No non-numerical data available to summarize.")
      (shown (summaries header_only)) <->
   (forall c, In c header_only -> is_bool_or_object (col_data c) = false) \/
   len header_only = 0) /\
  (In (Statistics (select_dtypes is_number header_only)) (shown (summaries header_only)) \/
   In (Warning "No numerical data available to summarize.") (shown (summaries header_only))) /\
  snd (summaries header_only) = Returns tt.
Proof.
  apply (summary_tabs_warn_on_nothing_to_describe header_only). split.
  - repeat constructor; simpl; intuition discriminate.
  - repeat constructor.
Defined.

(** *** How a cycle ends *)














End CycleFacts.
